(** * TaskGlitch: the task store hook [src/hooks/useTasks.ts]

    A shallow embedding of the [useTasks] hook: the record normaliser
    [normalizeTasks], the CRUD operations of the store ([addTask],
    [updateTask], [deleteTask], [undoDelete], [clearLastDeleted]), the
    [metrics] memo and the one-shot loading effect.

    The hook is present in two revisions (the second one carries the
    comments "FIXED" and "NEW").  Both are embedded: what the two share
    word for word is defined once, what differs lives in [Module RevA]
    (first revision) and [Module RevB] (second revision).

    Conventions of the embedding.
    - A JavaScript number is an IEEE-754 binary64 value: Rocq's primitive
      [float].  Comparisons are [PrimFloat.ltb]/[leb], so [NaN] behaves as
      in the engine.
    - The time value of a [Date] is [option Z]: [None] is the invalid date
      (time value [NaN]), [Some t] an integral number of milliseconds that
      passed [TimeClip].
    - Evaluation that can throw returns a [Completion].
    - The engine's built-ins whose definition is outside the repository
      and too large (or implementation-defined) are the fields of
      [Engine]; every theorem holds for every engine. *)

From Stdlib Require Import ZArith List String Ascii Bool Lia Permutation.
From Stdlib Require Import Floats.
Import ListNotations.

Set Warnings "-register-all".

Local Open Scope string_scope.
Local Open Scope Z_scope.

(** ** Values and completions *)

(** The values [JSON.parse] produces, plus [undefined] (a missing
    property).  An object is its list of properties, first match wins. *)
Inductive JsValue : Type :=
| JUndefined
| JNull
| JBool (b : bool)
| JNumber (x : float)
| JString (s : string)
| JArray (items : list JsValue)
| JObject (props : list (string * JsValue)).

Inductive JsError : Type := TypeError | RangeError.

Inductive Completion (A : Type) : Type :=
| Return (a : A)
| Throw (e : JsError).
Arguments Return {A} a.
Arguments Throw {A} e.

Definition bind {A B} (c : Completion A) (k : A -> Completion B) : Completion B :=
  match c with
  | Return a => k a
  | Throw e => Throw e
  end.

Notation "x <- c ;; k" := (bind c (fun x => k))
  (at level 61, c at next level, right associativity).

(** [Array.prototype.map] with the index, over a callback that may throw:
    rows are visited left to right and the first exception ends the call. *)
Fixpoint mapWithIndex {A B} (f : A -> nat -> Completion B) (idx : nat) (xs : list A)
  : Completion (list B) :=
  match xs with
  | [] => Return []
  | x :: rest =>
      y <- f x idx ;;
      ys <- mapWithIndex f (S idx) rest ;;
      Return (y :: ys)
  end.

(** ** The engine's built-ins *)

Record Engine : Type := {
  (** StringToNumber of ECMA-262 (the numeric value of a string, or NaN). *)
  StringToNumber : string -> float;
  (** Number::toString. *)
  NumberToString : float -> string;
  (** [Date.parse]: the time value read from a string, [None] for NaN. *)
  DateParse : string -> option Z;
  (** LocalTZA(t, false): the offset of local time from UTC at local time t. *)
  LocalTZA : Z -> Z;
  (** The [message] of the exception object the engine throws. *)
  ErrorMessage : JsError -> string
}.

Fixpoint lookup (k : string) (props : list (string * JsValue)) : JsValue :=
  match props with
  | [] => JUndefined
  | (k', v) :: rest => if String.eqb k k' then v else lookup k rest
  end.

(** [t.k] for the property names the hook reads (none of them is an own
    property of a string, an array or a number). *)
Definition Get (t : JsValue) (k : string) : Completion JsValue :=
  match t with
  | JUndefined | JNull => Throw TypeError
  | JObject props => Return (lookup k props)
  | _ => Return JUndefined
  end.

Definition ToBoolean (v : JsValue) : bool :=
  match v with
  | JUndefined | JNull => false
  | JBool b => b
  | JNumber x => negb (PrimFloat.eqb x 0 || PrimFloat.is_nan x)
  | JString s => negb (String.eqb s "")
  | JArray _ | JObject _ => true
  end.

(** [v === s] for a string literal [s]. *)
Definition strictEqString (v : JsValue) (s : string) : bool :=
  match v with
  | JString s' => String.eqb s' s
  | _ => false
  end.

(** [a ?? b] *)
Definition nullish (v : JsValue) : bool :=
  match v with
  | JUndefined | JNull => true
  | _ => false
  end.

Definition join (sep : string) (parts : list string) : string :=
  match parts with
  | [] => ""
  | p :: rest => fold_left (fun acc q => acc ++ sep ++ q) rest p
  end.

Section Coercions.
Variable engine : Engine.

(** ToString; an array is joined with commas ([Array.prototype.join]),
    a plain object prints as "[object Object]". *)
Fixpoint ToString (v : JsValue) : string :=
  match v with
  | JUndefined => "undefined"
  | JNull => "null"
  | JBool true => "true"
  | JBool false => "false"
  | JNumber x => NumberToString engine x
  | JString s => s
  | JArray items =>
      join "," (map (fun i => if nullish i then "" else ToString i) items)
  | JObject _ => "[object Object]"
  end.

(** ToNumber, that is [Number(v)]. *)
Definition ToNumber (v : JsValue) : float :=
  match v with
  | JUndefined => nan
  | JNull => 0%float
  | JBool true => 1%float
  | JBool false => 0%float
  | JNumber x => x
  | JString s => StringToNumber engine s
  | JArray _ | JObject _ => StringToNumber engine (ToString v)
  end.
End Coercions.

(** ** Dates *)

Definition msPerDay : Z := 24 * 3600 * 1000.

(** TimeClip on an integral time: beyond 8.64e15 ms the date is invalid. *)
Definition TimeClipZ (t : Z) : option Z :=
  if Z.abs t <=? 8640000000000000 then Some t else None.

(** ToIntegerOrInfinity of a finite number (truncation towards zero);
    [None] for NaN and the infinities. *)
Definition truncate (x : float) : option Z :=
  match Prim2SF x with
  | S754_zero _ => Some 0
  | S754_finite s m e =>
      let a := if 0 <=? e then Z.pos m * 2 ^ e else Z.pos m / 2 ^ (- e) in
      Some (if s then - a else a)
  | S754_nan => Some 0
  | S754_infinity _ => None
  end.

(** TimeClip of a number, as [new Date(number)] applies it. *)
Definition TimeClip (x : float) : option Z :=
  if PrimFloat.is_nan x then None
  else match truncate x with
       | Some t => TimeClipZ t
       | None => None
       end.

(** [x % 28] on numbers: NaN for a NaN or infinite dividend, else the exact
    remainder with the sign of the dividend. *)
Definition rem28 (x : float) : float :=
  match Prim2SF x with
  | S754_nan | S754_infinity _ => nan
  | S754_zero _ => x
  | S754_finite s m e =>
      let r :=
        if 0 <=? e
        then binary_normalize 53 1024 ((Z.pos m * 2 ^ e) mod 28) 0 s
        else binary_normalize 53 1024 (Z.pos m mod (28 * 2 ^ (- e))) e s in
      let r := match r with
               | S754_finite _ m' e' => S754_finite s m' e'
               | S754_zero _ => S754_zero s
               | other => other
               end in
      SF2Prim r
  end.

(** Days from 1970-01-01 to the civil date of day number [z], as year,
    month (1..12) and day of the month. *)
Definition civilFromDays (z : Z) : Z * Z * Z :=
  let z := z + 719468 in
  let era := z / 146097 in
  let doe := z - era * 146097 in
  let yoe := (doe - doe / 1460 + doe / 36524 - doe / 146096) / 365 in
  let y := yoe + era * 400 in
  let doy := doe - (365 * yoe + yoe / 4 - yoe / 100) in
  let mp := (5 * doy + 2) / 153 in
  let d := doy - (153 * mp + 2) / 5 + 1 in
  let m := if mp <? 10 then mp + 3 else mp - 9 in
  (if m <=? 2 then y + 1 else y, m, d).

Definition digit (n : Z) : string :=
  String (ascii_of_nat (48 + Z.to_nat (n mod 10))) EmptyString.

(** The last [width] decimal digits of [n], zero padded. *)
Fixpoint pad (width : nat) (n : Z) : string :=
  match width with
  | O => ""
  | S w => pad w (n / 10) ++ digit n
  end.

Definition isoYear (y : Z) : string :=
  if (0 <=? y) && (y <=? 9999) then pad 4 y
  else (if y <? 0 then "-" else "+") ++ pad 6 (Z.abs y).

(** The text [Date.prototype.toISOString] prints for a valid time value. *)
Definition isoOfTime (t : Z) : string :=
  let '(y, m, d) := civilFromDays (t / msPerDay) in
  let ms := t mod msPerDay in
  isoYear y ++ "-" ++ pad 2 m ++ "-" ++ pad 2 d ++ "T" ++
  pad 2 (ms / 3600000) ++ ":" ++ pad 2 (ms / 60000 mod 60) ++ ":" ++
  pad 2 (ms / 1000 mod 60) ++ "." ++ pad 3 (ms mod 1000) ++ "Z".

(** [date.toISOString()]: a RangeError on the invalid date. *)
Definition toISOString (date : option Z) : Completion string :=
  match date with
  | Some t => Return (isoOfTime t)
  | None => Throw RangeError
  end.

(** [date.getTime() + ms], handed to [new Date(...)]: NaN stays NaN, the
    sum of two integers below 2^53 is exact. *)
Definition plusMs (date : option Z) (ms : Z) : option Z :=
  match date with
  | Some t => TimeClipZ (t + ms)
  | None => None
  end.

Section Dates.
Variable engine : Engine.

(** [new Date(v)] of one argument: a string (or an object, through
    ToPrimitive) is parsed, anything else is a number of milliseconds. *)
Definition newDate (v : JsValue) : option Z :=
  match v with
  | JString s =>
      match DateParse engine s with Some t => TimeClipZ t | None => None end
  | JArray _ | JObject _ =>
      match DateParse engine (ToString engine v) with
      | Some t => TimeClipZ t
      | None => None
      end
  | _ => TimeClip (ToNumber engine v)
  end.

(** [new Date(2020, 0, day)]: local midnight of that day of January 2020
    (day 18262 of the epoch is 2020-01-01), converted to UTC. *)
Definition newDate2020Jan (day : float) : option Z :=
  if PrimFloat.is_nan day then None
  else match truncate day with
       | Some dt =>
           let t := (18262 + dt - 1) * msPerDay in
           TimeClipZ (t - LocalTZA engine t)
       | None => None
       end.
End Dates.

(** ** Tasks *)

(** A [Task] as it lives in the store.  [normalizeTasks] passes several
    raw fields through unchanged (they are typed by a cast only), so these
    fields hold whatever value the raw record had. *)
Record Task : Type := {
  id : JsValue;
  title : JsValue;
  revenue : float;
  timeTaken : float;
  priority : JsValue;
  status : JsValue;
  notes : JsValue;
  createdAt : string;
  completedAt : JsValue
}.

(** [a ?? b] on values. *)
Definition coalesce (a b : JsValue) : JsValue :=
  if nullish a then b else a.

(** [x ?? d] where [x] is a number: the right operand is taken for null
    and undefined only. *)
Definition numberCoalesce (x d : float) : float :=
  if nullish (JNumber x) then d else x.

(** [s.replace(/\D/g, "")]: the decimal digits of [s], in order. *)
Fixpoint removeNonDigits (s : string) : string :=
  match s with
  | EmptyString => EmptyString
  | String c rest =>
      if ((48 <=? nat_of_ascii c) && (nat_of_ascii c <=? 57))%nat
      then String c (removeNonDigits rest)
      else removeNonDigits rest
  end.

(** *** First revision of [normalizeTasks] *)
Module RevA.
Section Normalizer.
Variable engine : Engine.

(** The callback of [map]; [now] is the [Date.now()] read at the top of
    [normalizeTasks].  [(idx + 1) * 24 * 3600 * 1000] is a multiple of 1024
    below 2^63 and so exact as a number; the difference from [now] is exact
    below 2^53 and beyond TimeClip's bound otherwise. *)
Definition normalizeTask (now : Z) (t : JsValue) (idx : nat) : Completion Task :=
  rawCreated <- Get t "createdAt" ;;
  let created :=
    if ToBoolean rawCreated
    then newDate engine rawCreated
    else TimeClipZ (now - (Z.of_nat idx + 1) * 24 * 3600 * 1000) in
  rawCompleted <- Get t "completedAt" ;;
  completed <-
    (if ToBoolean rawCompleted then Return rawCompleted
     else
       rawStatus <- Get t "status" ;;
       if strictEqString rawStatus "Done"
       then iso <- toISOString (plusMs created (24 * 3600 * 1000)) ;;
            Return (JString iso)
       else Return JUndefined) ;;
  rawId <- Get t "id" ;;
  rawTitle <- Get t "title" ;;
  rawRevenue <- Get t "revenue" ;;
  rawTime <- Get t "timeTaken" ;;
  rawPriority <- Get t "priority" ;;
  rawStatus <- Get t "status" ;;
  rawNotes <- Get t "notes" ;;
  createdIso <- toISOString created ;;
  Return {|
    id := JString (ToString engine rawId);
    title := JString (ToString engine rawTitle);
    revenue := numberCoalesce (ToNumber engine rawRevenue) 0;
    timeTaken :=
      if PrimFloat.ltb 0 (ToNumber engine rawTime)
      then ToNumber engine rawTime else 1%float;
    priority := rawPriority;
    status := rawStatus;
    notes := coalesce rawNotes (JString "");
    createdAt := createdIso;
    completedAt := completed
  |}.

Definition normalizeTasks (now : Z) (input : JsValue) : Completion (list Task) :=
  match input with
  | JArray rows => mapWithIndex (normalizeTask now) 0 rows
  | _ => Return []
  end.
End Normalizer.
End RevA.

(** *** Second revision of [normalizeTasks] *)
Module RevB.
Section Normalizer.
Variable engine : Engine.

(** [stableDateFromId]: only a string has a [replace] method. *)
Definition stableDateFromId (id : JsValue) : Completion (option Z) :=
  match id with
  | JString s =>
      let n := StringToNumber engine (removeNonDigits s) in
      let num := if ToBoolean (JNumber n) then n else 1%float in
      Return (newDate2020Jan engine (rem28 num + 1)%float)
  | _ => Throw TypeError
  end.

Definition normalizeTask (t : JsValue) (idx : nat) : Completion Task :=
  rawCreated <- Get t "createdAt" ;;
  created <-
    (if ToBoolean rawCreated
     then Return (newDate engine rawCreated)
     else rawId <- Get t "id" ;;
          stableDateFromId (coalesce rawId (JString ""))) ;;
  rawCompleted <- Get t "completedAt" ;;
  completed <-
    (if ToBoolean rawCompleted then Return rawCompleted
     else
       rawStatus <- Get t "status" ;;
       if strictEqString rawStatus "Done"
       then iso <- toISOString (plusMs created (24 * 3600 * 1000)) ;;
            Return (JString iso)
       else Return JUndefined) ;;
  rawId <- Get t "id" ;;
  rawTitle <- Get t "title" ;;
  rawRevenue <- Get t "revenue" ;;
  rawTime <- Get t "timeTaken" ;;
  rawPriority <- Get t "priority" ;;
  rawStatus <- Get t "status" ;;
  rawNotes <- Get t "notes" ;;
  createdIso <- toISOString created ;;
  Return {|
    id := rawId;
    title := rawTitle;
    revenue := numberCoalesce (ToNumber engine rawRevenue) 0;
    timeTaken :=
      if PrimFloat.ltb 0 (ToNumber engine rawTime)
      then ToNumber engine rawTime else 1%float;
    priority := rawPriority;
    status := rawStatus;
    notes := rawNotes;
    createdAt := createdIso;
    completedAt := completed
  |}.

Definition normalizeTasks (input : JsValue) : Completion (list Task) :=
  match input with
  | JArray rows => mapWithIndex normalizeTask 0 rows
  | _ => Return []
  end.
End Normalizer.
End RevB.

(** ** The store and its mutations *)

(** The React state of the hook that the mutations touch.  Every operation
    below is the state transition of one call on the committed state (the
    functional updater of [setTasks] and the [setLastDeleted] of the same
    call taken together). *)
Record Store : Type := {
  tasks : list Task;
  lastDeleted : option Task
}.

(** The argument of [addTask]: a task whose [id] is optional.  [createdAt]
    and [completedAt] of the argument are overwritten and left out here. *)
Record Draft : Type := {
  draftId : option string;
  draftTitle : JsValue;
  draftRevenue : float;
  draftTimeTaken : float;
  draftPriority : JsValue;
  draftStatus : JsValue;
  draftNotes : JsValue
}.

(** [Partial<Task>]: [None] is a key the patch does not have. *)
Record Patch : Type := {
  patchId : option JsValue;
  patchTitle : option JsValue;
  patchRevenue : option float;
  patchTimeTaken : option float;
  patchPriority : option JsValue;
  patchStatus : option JsValue;
  patchNotes : option JsValue;
  patchCreatedAt : option string;
  patchCompletedAt : option JsValue
}.

Definition emptyPatch : Patch :=
  {| patchId := None; patchTitle := None; patchRevenue := None;
     patchTimeTaken := None; patchPriority := None; patchStatus := None;
     patchNotes := None; patchCreatedAt := None; patchCompletedAt := None |}.

Definition orElse {A} (o : option A) (d : A) : A :=
  match o with Some a => a | None => d end.

(** [{ ...t, ...patch }] *)
Definition merge (t : Task) (patch : Patch) : Task :=
  {| id := orElse (patchId patch) (id t);
     title := orElse (patchTitle patch) (title t);
     revenue := orElse (patchRevenue patch) (revenue t);
     timeTaken := orElse (patchTimeTaken patch) (timeTaken t);
     priority := orElse (patchPriority patch) (priority t);
     status := orElse (patchStatus patch) (status t);
     notes := orElse (patchNotes patch) (notes t);
     createdAt := orElse (patchCreatedAt patch) (createdAt t);
     completedAt := orElse (patchCompletedAt patch) (completedAt t) |}.

Definition withCompletedAt (t : Task) (c : JsValue) : Task :=
  {| id := id t; title := title t; revenue := revenue t;
     timeTaken := timeTaken t; priority := priority t; status := status t;
     notes := notes t; createdAt := createdAt t; completedAt := c |}.

Definition withTimeTaken (t : Task) (x : float) : Task :=
  {| id := id t; title := title t; revenue := revenue t;
     timeTaken := x; priority := priority t; status := status t;
     notes := notes t; createdAt := createdAt t; completedAt := completedAt t |}.

(** [addTask(task)]; [now] is the clock read by [new Date()], [uuid] the
    result of [crypto.randomUUID()]. *)
Definition addTask (now : Z) (uuid : string) (task : Draft) (prev : list Task)
  : list Task :=
  let id := orElse (draftId task) uuid in
  let timeTaken :=
    if PrimFloat.leb (draftTimeTaken task) 0 then 1%float
    else draftTimeTaken task in
  let createdAt := isoOfTime now in
  let status := draftStatus task in
  let completedAt :=
    if strictEqString status "Done" then JString createdAt else JUndefined in
  (prev ++ [ {| id := JString id;
               title := draftTitle task;
               revenue := draftRevenue task;
               timeTaken := timeTaken;
               priority := draftPriority task;
               status := status;
               notes := draftNotes task;
               createdAt := createdAt;
               completedAt := completedAt |} ])%list.

(** The stamp both revisions of [updateTask] apply to the merged record. *)
Definition stampCompleted (now : Z) (t merged : Task) : Task :=
  if negb (strictEqString (status t) "Done")
     && strictEqString (status merged) "Done"
     && negb (ToBoolean (completedAt merged))
  then withCompletedAt merged (JString (isoOfTime now))
  else merged.

Module RevAStore.
(** [updateTask(id, patch)], first revision: one pass. *)
Definition updateTask (now : Z) (id' : string) (patch : Patch) (prev : list Task)
  : list Task :=
  map (fun t =>
         if negb (strictEqString (id t) id') then t
         else
           let merged := stampCompleted now t (merge t patch) in
           if PrimFloat.leb (orElse (patchTimeTaken patch) (timeTaken merged)) 0
           then withTimeTaken merged 1
           else merged)
      prev.
End RevAStore.

Module RevBStore.
(** [updateTask(id, patch)], second revision: the merge, then a second pass
    for [timeTaken]. *)
Definition updateTask (now : Z) (id' : string) (patch : Patch) (prev : list Task)
  : list Task :=
  let next :=
    map (fun t =>
           if negb (strictEqString (id t) id') then t
           else stampCompleted now t (merge t patch))
        prev in
  map (fun t =>
         if strictEqString (id t) id'
            && PrimFloat.leb (orElse (patchTimeTaken patch) (timeTaken t)) 0
         then withTimeTaken t 1
         else t)
      next.
End RevBStore.

(** [deleteTask(id)] *)
Definition deleteTask (id' : string) (s : Store) : Store :=
  let target := find (fun t => strictEqString (id t) id') (tasks s) in
  {| tasks := filter (fun t => negb (strictEqString (id t) id')) (tasks s);
     lastDeleted := target |}.

(** [undoDelete()] *)
Definition undoDelete (s : Store) : Store :=
  match lastDeleted s with
  | None => s
  | Some t => {| tasks := (tasks s ++ [t])%list; lastDeleted := None |}
  end.

(** [clearLastDeleted()] (second revision only) *)
Definition clearLastDeleted (s : Store) : Store :=
  {| tasks := tasks s; lastDeleted := None |}.

(** ** Metrics *)

Record Metrics : Type := {
  totalRevenue : float;
  totalTimeTaken : float;
  timeEfficiencyPct : float;
  revenuePerHour : float;
  averageROI : float;
  performanceGrade : string
}.

Definition INITIAL_METRICS : Metrics :=
  {| totalRevenue := 0; totalTimeTaken := 0; timeEfficiencyPct := 0;
     revenuePerHour := 0; averageROI := 0;
     performanceGrade := "Needs Improvement" |}.

Section MetricsMemo.
(** The helpers imported from [@/utils/logic], whose source is not part of
    the files at hand: taken as parameters. *)
Variables computeTotalRevenue computeTimeEfficiency computeRevenuePerHour
  computeAverageROI : list Task -> float.
Variable computePerformanceGrade : float -> string.

(** The [metrics] memo; both revisions compute the same record. *)
Definition metrics (ts : list Task) : Metrics :=
  if (List.length ts =? 0)%nat then INITIAL_METRICS
  else
    {| totalRevenue := computeTotalRevenue ts;
       totalTimeTaken :=
         fold_left (fun s t => (s + timeTaken t)%float) ts 0%float;
       timeEfficiencyPct := computeTimeEfficiency ts;
       revenuePerHour := computeRevenuePerHour ts;
       averageROI := computeAverageROI ts;
       performanceGrade := computePerformanceGrade (computeAverageROI ts) |}.
End MetricsMemo.

(** ** The hook instance and its loading effect *)

(** What the awaited [fetch("/tasks.json")] and [res.json()] come to. *)
Inductive Response : Type :=
| Rejected (message : JsValue)  (* a promise rejects with [err]; [err?.message] *)
| NotOk (status : string)       (* [res.ok] is false; the status as printed *)
| Json (body : JsValue).        (* the parsed body *)

(** The calls the effect makes, logged to count them. *)
Inductive Action : Type :=
| DidFetch
| DidNormalize
| DidSeed (seeded : list Task).

(** One instance of the hook: its state cells, the [fetchedRef] ref, and
    the [isMounted] flag of every [load()] started and not yet settled. *)
Record Hook : Type := {
  store : Store;
  loading : bool;
  error : JsValue;
  fetchedRef : bool;
  inflight : list bool
}.

Definition initialHook : Hook :=
  {| store := {| tasks := []; lastDeleted := None |};
     loading := true; error := JNull; fetchedRef := false; inflight := [] |}.

Inductive Event : Type :=
| EffectRuns                                  (* React calls the effect *)
| CleanupRuns                                 (* React calls its cleanup *)
| LoadSettles (now : Z) (r : Response)        (* the oldest [load()] resumes *)
| CallAdd (now : Z) (uuid : string) (task : Draft)
| CallUpdate (now : Z) (id' : string) (patch : Patch)
| CallDelete (id' : string)
| CallUndo
| CallClear.

Section Lifecycle.
Variable engine : Engine.
(** [normalizeTasks] of the revision at hand ([now] is the clock at the
    call) and its [updateTask]. *)
Variable normalizeTasks : Z -> JsValue -> Completion (list Task).
Variable updateTask : Z -> string -> Patch -> list Task -> list Task.
(** [generateSalesTasks] of [@/utils/seed], not part of the files at hand. *)
Variable generateSalesTasks : nat -> list Task.

Definition setStore (h : Hook) (s : Store) : Hook :=
  {| store := s; loading := loading h; error := error h;
     fetchedRef := fetchedRef h; inflight := inflight h |}.

Definition setTasks (h : Hook) (ts : list Task) : Hook :=
  setStore h {| tasks := ts; lastDeleted := lastDeleted (store h) |}.

Definition setLoading (h : Hook) (b : bool) : Hook :=
  {| store := store h; loading := b; error := error h;
     fetchedRef := fetchedRef h; inflight := inflight h |}.

Definition setError (h : Hook) (e : JsValue) : Hook :=
  {| store := store h; loading := loading h; error := e;
     fetchedRef := fetchedRef h; inflight := inflight h |}.

Definition setInflight (h : Hook) (l : list bool) : Hook :=
  {| store := store h; loading := loading h; error := error h;
     fetchedRef := fetchedRef h; inflight := l |}.

(** The body of [useEffect]: the guard on [fetchedRef], then [load()]. *)
Definition effect (h : Hook) : Hook * list Action :=
  if fetchedRef h then (h, [])
  else
    ({| store := store h; loading := loading h; error := error h;
        fetchedRef := true; inflight := (inflight h ++ [true])%list |},
     [DidFetch]).

(** The cleanup: [isMounted = false]. *)
Definition cleanup (h : Hook) : Hook :=
  setInflight h (map (fun _ => false) (inflight h)).

(** The rest of [load()] once its awaits are settled with [r]. *)
Definition resume (now : Z) (r : Response) (isMounted : bool) (h : Hook)
  : Hook * list Action :=
  let finally h := if isMounted then setLoading h false else h in
  let catch message h := if isMounted then setError h message else h in
  match r with
  | Rejected message =>
      (finally (catch (coalesce message (JString "Failed to load tasks")) h), [])
  | NotOk status =>
      (finally
         (catch (JString ("Failed to load tasks.json (" ++ status ++ ")")) h),
       [])
  | Json body =>
      match normalizeTasks now body with
      | Return normalized =>
          let finalTasks :=
            if (0 <? List.length normalized)%nat then normalized
            else generateSalesTasks 50 in
          if isMounted
          then (finally (setTasks h finalTasks), [DidNormalize; DidSeed finalTasks])
          else (finally h, [DidNormalize])
      | Throw e =>
          (finally (catch (JString (ErrorMessage engine e)) h), [DidNormalize])
      end
  end.

Definition step (h : Hook) (ev : Event) : Hook * list Action :=
  match ev with
  | EffectRuns => effect h
  | CleanupRuns => (cleanup h, [])
  | LoadSettles now r =>
      match inflight h with
      | [] => (h, [])
      | isMounted :: rest => resume now r isMounted (setInflight h rest)
      end
  | CallAdd now uuid task =>
      (setTasks h (addTask now uuid task (tasks (store h))), [])
  | CallUpdate now id' patch =>
      (setTasks h (updateTask now id' patch (tasks (store h))), [])
  | CallDelete id' => (setStore h (deleteTask id' (store h)), [])
  | CallUndo => (setStore h (undoDelete (store h)), [])
  | CallClear => (setStore h (clearLastDeleted (store h)), [])
  end.

(** A session: the events an instance meets, in order, with the log. *)
Fixpoint run (h : Hook) (evs : list Event) : Hook * list Action :=
  match evs with
  | [] => (h, [])
  | ev :: rest =>
      let '(h1, log1) := step h ev in
      let '(h2, log2) := run h1 rest in
      (h2, (log1 ++ log2)%list)
  end.
End Lifecycle.

Definition isFetch (a : Action) : bool :=
  match a with DidFetch => true | _ => false end.
Definition isNormalize (a : Action) : bool :=
  match a with DidNormalize => true | _ => false end.
Definition isSeed (a : Action) : bool :=
  match a with DidSeed _ => true | _ => false end.

Definition count (p : Action -> bool) (log : list Action) : nat :=
  List.length (filter p log).

(** ** Predicates of the statements *)

Definition field (t : JsValue) (k : string) : JsValue :=
  match t with
  | JObject props => lookup k props
  | _ => JUndefined
  end.

(** A row on which property access does not throw. *)
Definition rowOk (t : JsValue) : bool := negb (nullish t).

(** The rule for [completedAt]: the raw value when it is truthy; the ISO
    text of [createdAt] plus 24 hours when the status is "Done"; undefined
    otherwise. *)
Definition completedAtRule (t : JsValue) (out : Task) : Prop :=
  exists created : Z,
    createdAt out = isoOfTime created /\
    (ToBoolean (field t "completedAt") = true ->
     completedAt out = field t "completedAt") /\
    (ToBoolean (field t "completedAt") = false ->
     strictEqString (field t "status") "Done" = true ->
     completedAt out = JString (isoOfTime (created + 24 * 3600 * 1000))) /\
    (ToBoolean (field t "completedAt") = false ->
     strictEqString (field t "status") "Done" = false ->
     completedAt out = JUndefined).

(** What a returned record of either revision holds. *)
Definition normalized (engine : Engine) (t : JsValue) (out : Task) : Prop :=
  rowOk t = true /\
  revenue out = ToNumber engine (field t "revenue") /\
  timeTaken out =
    (if PrimFloat.ltb 0 (ToNumber engine (field t "timeTaken"))
     then ToNumber engine (field t "timeTaken") else 1%float) /\
  status out = field t "status" /\
  completedAtRule t out.

(** *** Concrete inputs *)

(** [{ id: "t-1", title: "Call", revenue: 100, timeTaken: 2,
       priority: "High", status: "Done" }]: no [createdAt]. *)
Definition rowDoneNoDates : JsValue :=
  JObject [("id", JString "t-1"); ("title", JString "Call");
           ("revenue", JNumber 100); ("timeTaken", JNumber 2);
           ("priority", JString "High"); ("status", JString "Done")].

(** The same row under the id of the source's comment, "t-2001". *)
Definition row2001 : JsValue :=
  JObject [("id", JString "t-2001"); ("title", JString "Call");
           ("revenue", JNumber 100); ("timeTaken", JNumber 2);
           ("priority", JString "High"); ("status", JString "Done")].

(** The same row with [createdAt: 1577836800000] (2020-01-01T00:00Z). *)
Definition rowDone2020 : JsValue :=
  JObject [("id", JString "t-1"); ("title", JString "Call");
           ("revenue", JNumber 100); ("timeTaken", JNumber 2);
           ("priority", JString "High"); ("status", JString "Done");
           ("createdAt", JNumber 1577836800000)].

Definition taskDone2020 : Task :=
  {| id := JString "t-1"; title := JString "Call"; revenue := 100;
     timeTaken := 2; priority := JString "High"; status := JString "Done";
     notes := JString ""; createdAt := "2020-01-01T00:00:00.000Z";
     completedAt := JString "2020-01-02T00:00:00.000Z" |}.

(** A row without [revenue], [timeTaken: -3], not done. *)
Definition rowNoRevenue : JsValue :=
  JObject [("id", JString "t-2"); ("title", JString "Mail");
           ("timeTaken", JNumber (-3)); ("priority", JString "Low");
           ("status", JString "Todo"); ("createdAt", JNumber 1577836800000)].

(** [{ ..., revenue: "abc" }] *)
Definition rowRevenueAbc : JsValue :=
  JObject [("id", JString "t-3"); ("title", JString "Demo");
           ("revenue", JString "abc"); ("timeTaken", JNumber 1);
           ("priority", JString "Low"); ("status", JString "Todo");
           ("createdAt", JNumber 1577836800000)].

(** [{ ..., createdAt: 1e16 }]: a number of milliseconds beyond the last date. *)
Definition rowCreatedOutOfRange : JsValue :=
  JObject [("id", JString "t-4"); ("title", JString "Late");
           ("revenue", JNumber 1); ("timeTaken", JNumber 1);
           ("priority", JString "Low"); ("status", JString "Todo");
           ("createdAt", JNumber 1e16)].

(** [{ id: 7, ... }] without [createdAt]: a numeric id. *)
Definition rowNumericId : JsValue :=
  JObject [("id", JNumber 7); ("title", JString "Seven");
           ("revenue", JNumber 1); ("timeTaken", JNumber 1);
           ("priority", JString "Low"); ("status", JString "Todo")].

(** 2026-01-01T00:00:00.000Z *)
Definition clock2026 : Z := 1767225600000.

Definition stamps (c : Completion (list Task)) : Completion (list (string * JsValue)) :=
  ts <- c ;; Return (map (fun t => (createdAt t, completedAt t)) ts).

Definition outNoRevenue (notes' : JsValue) : Task :=
  {| id := JString "t-2"; title := JString "Mail"; revenue := nan;
     timeTaken := 1; priority := JString "Low"; status := JString "Todo";
     notes := notes'; createdAt := "2020-01-01T00:00:00.000Z";
     completedAt := JUndefined |}.

(** [addTask({ title: "Call", revenue: 10, timeTaken: NaN, ... })] *)
Definition draftNaN : Draft :=
  {| draftId := None; draftTitle := JString "Call"; draftRevenue := 10;
     draftTimeTaken := nan; draftPriority := JString "High";
     draftStatus := JString "Todo"; draftNotes := JString "" |}.

Definition taskTodo : Task :=
  {| id := JString "t-1"; title := JString "Call"; revenue := 100;
     timeTaken := 2; priority := JString "High"; status := JString "Todo";
     notes := JString ""; createdAt := "2020-01-01T00:00:00.000Z";
     completedAt := JUndefined |}.

(** [{ timeTaken: NaN }] *)
Definition patchNaN : Patch :=
  {| patchId := None; patchTitle := None; patchRevenue := None;
     patchTimeTaken := Some nan; patchPriority := None; patchStatus := None;
     patchNotes := None; patchCreatedAt := None; patchCompletedAt := None |}.

(** [{ id: "t-9", timeTaken: -5 }] *)
Definition patchRename : Patch :=
  {| patchId := Some (JString "t-9"); patchTitle := None; patchRevenue := None;
     patchTimeTaken := Some (-5)%float; patchPriority := None;
     patchStatus := None; patchNotes := None; patchCreatedAt := None;
     patchCompletedAt := None |}.

Definition positive (t : Task) : bool := PrimFloat.ltb 0 (timeTaken t).

Definition taskDone2020B : Task :=
  {| id := JString "t-1"; title := JString "Call"; revenue := 100;
     timeTaken := 2; priority := JString "High"; status := JString "Done";
     notes := JUndefined; createdAt := "2020-01-01T00:00:00.000Z";
     completedAt := JString "2020-01-02T00:00:00.000Z" |}.

Definition isArray (v : JsValue) : bool :=
  match v with JArray _ => true | _ => false end.

(** The rows of the array the normaliser maps over: those of an array,
    none for any other value. *)
Definition rowsOf (input : JsValue) : list JsValue :=
  match input with JArray rows => rows | _ => [] end.

(** What [normalizeTasks] with the per-row callback [f] does on [input]. *)
Definition batchSpec (f : JsValue -> nat -> Completion Task)
    (result : Completion (list Task)) (input : JsValue) : Prop :=
  (isArray input = false -> result = Return []) /\
  (forall out, result = Return out ->
     List.length out = List.length (rowsOf input) /\
     forall i row, nth_error (rowsOf input) i = Some row ->
       exists o, nth_error out i = Some o /\ f row i = Return o) /\
  ((forall i row, nth_error (rowsOf input) i = Some row ->
      exists o, f row i = Return o) ->
   exists out, result = Return out) /\
  (forall i row e, nth_error (rowsOf input) i = Some row ->
     f row i = Throw e -> exists e', result = Throw e').

Definition hasId (id' : string) (t : Task) : bool := strictEqString (id t) id'.

Definition absent (id' : string) (ts : list Task) : Prop :=
  forall t, In t ts -> hasId id' t = false.

Definition taskOther : Task :=
  {| id := JString "t-2"; title := JString "Mail"; revenue := 50;
     timeTaken := 5; priority := JString "Low"; status := JString "Todo";
     notes := JString ""; createdAt := "2020-01-03T00:00:00.000Z";
     completedAt := JUndefined |}.

Definition storeTwo : Store :=
  {| tasks := [taskTodo; taskOther]; lastDeleted := None |}.

Definition hookTwo : Hook :=
  {| store := deleteTask "t-1" storeTwo; loading := false; error := JNull;
     fetchedRef := true; inflight := [] |}.

Definition occursOnce (id' : string) (ts : list Task) : Prop :=
  List.length (filter (hasId id') ts) = 1%nat.

(** [addTask({ id: "t-1", title, ... })], called twice with the same id. *)
Definition draftWithId (title' : string) : Draft :=
  {| draftId := Some "t-1"; draftTitle := JString title'; draftRevenue := 10;
     draftTimeTaken := 1; draftPriority := JString "High";
     draftStatus := JString "Todo"; draftNotes := JString "" |}.

Definition storeSameIdTwice : Store :=
  {| tasks := addTask 2000 "uuid-2" (draftWithId "second")
                (addTask 1000 "uuid-1" (draftWithId "first") []);
     lastDeleted := None |}.

(** [{ status: "Done" }] and [{ status: "In Progress" }] *)
Definition patchStatusOnly (s : string) : Patch :=
  {| patchId := None; patchTitle := None; patchRevenue := None;
     patchTimeTaken := None; patchPriority := None;
     patchStatus := Some (JString s);
     patchNotes := None; patchCreatedAt := None; patchCompletedAt := None |}.

(** A record created in the year 2100 (a [createdAt] of the seed file). *)
Definition taskFuture : Task :=
  {| id := JString "t-9"; title := JString "Plan"; revenue := 1;
     timeTaken := 1; priority := JString "Low"; status := JString "Todo";
     notes := JString ""; createdAt := "2100-01-01T00:00:00.000Z";
     completedAt := JUndefined |}.

Definition completedTexts (ts : list Task) : list JsValue := map completedAt ts.

Definition fetchBudget (h : Hook) : nat := if fetchedRef h then 0 else 1.

Definition loadBudget (h : Hook) : nat :=
  (List.length (inflight h) + fetchBudget h)%nat.

(** *** Predicates of the further properties *)



Definition isString (v : JsValue) : bool :=
  match v with JString _ => true | _ => false end.

(** A store whose records, the one in the slot included, all have
    [timeTaken > 0]. *)
Definition storePositive (s : Store) : bool :=
  forallb positive (tasks s)
  && match lastDeleted s with Some t => positive t | None => true end.

Definition patchKeepsId (id' : string) (patch : Patch) : bool :=
  match patchId patch with
  | None => true
  | Some v => strictEqString v id'
  end.

Definition patchTimeIsNumber (patch : Patch) : bool :=
  match patchTimeTaken patch with
  | None => true
  | Some x => negb (PrimFloat.is_nan x)
  end.

(** Calls whose [timeTaken] argument is not NaN. *)
Definition tameA (ev : Event) : bool :=
  match ev with
  | CallAdd _ _ task => negb (PrimFloat.is_nan (draftTimeTaken task))
  | CallUpdate _ _ patch => patchTimeIsNumber patch
  | _ => true
  end.

(** The same, with patches that leave the id alone. *)
Definition tameB (ev : Event) : bool :=
  match ev with
  | CallAdd _ _ task => negb (PrimFloat.is_nan (draftTimeTaken task))
  | CallUpdate _ id' patch => patchTimeIsNumber patch && patchKeepsId id' patch
  | _ => true
  end.

(** The calls of the store's consumer, as opposed to React's and the
    network's events. *)
Definition isCall (ev : Event) : bool :=
  match ev with
  | EffectRuns | CleanupRuns | LoadSettles _ _ => false
  | _ => true
  end.

(** The record [addTask] appends. *)
Definition added (now : Z) (uuid : string) (task : Draft) : Task :=
  {| id := JString (orElse (draftId task) uuid);
     title := draftTitle task;
     revenue := draftRevenue task;
     timeTaken :=
       if PrimFloat.leb (draftTimeTaken task) 0 then 1%float
       else draftTimeTaken task;
     priority := draftPriority task;
     status := draftStatus task;
     notes := draftNotes task;
     createdAt := isoOfTime now;
     completedAt :=
       if strictEqString (draftStatus task) "Done"
       then JString (isoOfTime now) else JUndefined |}.

Definition draftDone : Draft :=
  {| draftId := None; draftTitle := JString "Ship"; draftRevenue := 10;
     draftTimeTaken := 0; draftPriority := JString "High";
     draftStatus := JString "Done"; draftNotes := JString "" |}.

(** [{ title: "Renamed", timeTaken: -2 }] *)
Definition patchTitleTime : Patch :=
  {| patchId := None; patchTitle := Some (JString "Renamed");
     patchRevenue := None; patchTimeTaken := Some (-2)%float;
     patchPriority := None; patchStatus := None; patchNotes := None;
     patchCreatedAt := None; patchCompletedAt := None |}.

(** A row with every field in place. *)
Definition rowComplete : JsValue :=
  JObject [("id", JString "t-5"); ("title", JString "Quote");
           ("revenue", JNumber 40); ("timeTaken", JNumber 4);
           ("priority", JString "Medium"); ("status", JString "In Progress");
           ("notes", JString "call back");
           ("createdAt", JNumber 1577836800000)].


Definition sessionEvents : list Event :=
  [EffectRuns;
   LoadSettles clock2026 (Json (JArray [rowDone2020; rowNoRevenue]));
   CallAdd clock2026 "uuid-1" draftDone;
   CallUpdate clock2026 "t-1" patchTitleTime;
   CallDelete "t-2";
   CallUndo;
   CallClear].

Definition taskComplete : Task :=
  {| id := JString "t-5"; title := JString "Quote"; revenue := 40;
     timeTaken := 4; priority := JString "Medium";
     status := JString "In Progress"; notes := JString "call back";
     createdAt := "2020-01-01T00:00:00.000Z"; completedAt := JUndefined |}.


(** An instance whose load has failed. *)
Definition hookFailed : Hook :=
  {| store := {| tasks := []; lastDeleted := None |}; loading := false;
     error := JString "Failed to load tasks"; fetchedRef := true;
     inflight := [] |}.

(** [{ title: "No id", ... }]: neither [id] nor [createdAt]. *)
Definition rowNoId : JsValue :=
  JObject [("title", JString "No id"); ("revenue", JNumber 5);
           ("timeTaken", JNumber 1); ("priority", JString "Low");
           ("status", JString "Todo")].

(** Local midnight of 2020-01-02, as a local time value. *)
Definition jan2Local : Z := (18262 + 2 - 1) * msPerDay.

(** A stand-in engine in UTC that reads the empty string as 0 and no
    number or date from any other string; it instantiates hypotheses on
    the engine. *)
Definition plainEngine : Engine :=
  {| StringToNumber := fun s => if String.eqb s "" then 0%float else nan;
     NumberToString := fun _ => "NaN";
     DateParse := fun _ => None;
     LocalTZA := fun _ => 0;
     ErrorMessage := fun _ => "" |}.

(** * Properties *)

(** ** The date built-ins on known values *)

Example iso_epoch : isoOfTime 0 = "1970-01-01T00:00:00.000Z".
Proof. reflexivity. Qed.

Example iso_2020 : isoOfTime 1577836800000 = "2020-01-01T00:00:00.000Z".
Proof. reflexivity. Qed.

Example iso_leap : isoOfTime 1709210096789 = "2024-02-29T12:34:56.789Z".
Proof. reflexivity. Qed.

Example iso_before_epoch : isoOfTime (-1) = "1969-12-31T23:59:59.999Z".
Proof. reflexivity. Qed.

Example iso_max : isoOfTime 8640000000000000 = "+275760-09-13T00:00:00.000Z".
Proof. vm_compute. reflexivity. Qed.

Example iso_min : isoOfTime (-8640000000000000) = "-271821-04-20T00:00:00.000Z".
Proof. vm_compute. reflexivity. Qed.

Example rem28_30 : rem28 30 = 2%float.
Proof. reflexivity. Qed.

Example rem28_2001 : rem28 2001 = 13%float.
Proof. reflexivity. Qed.

Example rem28_frac : rem28 29.5 = 1.5%float.
Proof. reflexivity. Qed.

Example rem28_inf : PrimFloat.is_nan (rem28 infinity) = true.
Proof. reflexivity. Qed.

Example timeclip_frac : TimeClip 1.5 = Some 1.
Proof. reflexivity. Qed.

Example timeclip_huge : TimeClip 0x1p+60 = None.
Proof. reflexivity. Qed.

Example rem28_negative : rem28 (-30) = (-2)%float.
Proof. reflexivity. Qed.

Example removeNonDigits_t2001 : removeNonDigits "t-2001" = "2001".
Proof. reflexivity. Qed.

Lemma Get_Return t k v : Get t k = Return v -> v = field t k.
Proof. destruct t; simpl; intros H; inversion H; reflexivity. Qed.

Lemma bind_Return {A B} (c : Completion A) (k : A -> Completion B) b :
  bind c k = Return b -> exists a, c = Return a /\ k a = Return b.
Proof. destruct c; simpl; intros H; [eauto | discriminate]. Qed.

Lemma Get_rowOk t k : rowOk t = true -> Get t k = Return (field t k).
Proof. destruct t; simpl; intros H; try discriminate; reflexivity. Qed.

Lemma Get_not_rowOk t k : rowOk t = false -> Get t k = Throw TypeError.
Proof. destruct t; simpl; intros H; try discriminate; reflexivity. Qed.

Lemma plusMs_Some d ms t :
  plusMs d ms = Some t -> exists c, d = Some c /\ t = c + ms.
Proof.
  destruct d as [c|]; simpl; [|discriminate].
  unfold TimeClipZ. destruct (Z.abs (c + ms) <=? 8640000000000000); [|discriminate].
  intros H; inversion H; eauto.
Qed.

Lemma toISOString_Return d s :
  toISOString d = Return s -> exists t, d = Some t /\ s = isoOfTime t.
Proof. destruct d; simpl; intros H; inversion H; eauto. Qed.

(** ** Inversion of the normaliser *)

Tactic Notation "invert_bind" hyp(H) "as" ident(a) ident(Ha) :=
  apply bind_Return in H as (a & Ha & H).

Ltac invert_Return H := inversion H; subst; clear H.

(** The [completedAt] expression shared by both revisions. *)
Lemma completed_Return (t : JsValue) created completed :
  rowOk t = true ->
  (if ToBoolean (field t "completedAt") then Return (field t "completedAt")
   else
     rawStatus <- Get t "status" ;;
     if strictEqString rawStatus "Done"
     then iso <- toISOString (plusMs created (24 * 3600 * 1000)) ;;
          Return (JString iso)
     else Return JUndefined) = Return completed ->
  (ToBoolean (field t "completedAt") = true -> completed = field t "completedAt") /\
  (ToBoolean (field t "completedAt") = false ->
   strictEqString (field t "status") "Done" = true ->
   exists c, created = Some c /\
             completed = JString (isoOfTime (c + 24 * 3600 * 1000))) /\
  (ToBoolean (field t "completedAt") = false ->
   strictEqString (field t "status") "Done" = false ->
   completed = JUndefined).
Proof.
  intros Hrow H. rewrite (Get_rowOk _ _ Hrow) in H. cbn [bind] in H.
  destruct (ToBoolean (field t "completedAt")) eqn:Hc.
  - invert_Return H. repeat split; intros; try discriminate; reflexivity.
  - destruct (strictEqString (field t "status") "Done") eqn:Hs.
    + invert_bind H as iso Hiso. invert_Return H.
      apply toISOString_Return in Hiso as (t1 & Ht1 & ->).
      apply plusMs_Some in Ht1 as (c & -> & ->).
      repeat split; intros; try discriminate. eauto.
    + invert_Return H. repeat split; intros; try discriminate; reflexivity.
Qed.

Lemma RevA_normalizeTask_rowOk engine now t idx out :
  RevA.normalizeTask engine now t idx = Return out -> rowOk t = true.
Proof.
  intros H. destruct (rowOk t) eqn:Hrow; [reflexivity|].
  unfold RevA.normalizeTask in H. rewrite (Get_not_rowOk _ _ Hrow) in H.
  discriminate.
Qed.

Lemma RevB_normalizeTask_rowOk engine t idx out :
  RevB.normalizeTask engine t idx = Return out -> rowOk t = true.
Proof.
  intros H. destruct (rowOk t) eqn:Hrow; [reflexivity|].
  unfold RevB.normalizeTask in H. rewrite (Get_not_rowOk _ _ Hrow) in H.
  discriminate.
Qed.

Lemma RevA_normalizeTask_Return engine now t idx out :
  RevA.normalizeTask engine now t idx = Return out -> normalized engine t out.
Proof.
  intros H. pose proof (RevA_normalizeTask_rowOk _ _ _ _ _ H) as Hrow.
  unfold RevA.normalizeTask in H.
  rewrite (Get_rowOk t "createdAt" Hrow), (Get_rowOk t "completedAt" Hrow) in H.
  cbn [bind] in H.
  set (created := if ToBoolean (field t "createdAt") then _ else _) in H.
  invert_bind H as completed Hcompleted.
  apply (completed_Return _ _ _ Hrow) in Hcompleted as (K1 & K2 & K3).
  rewrite !(Get_rowOk _ _ Hrow) in H. cbn [bind] in H.
  invert_bind H as iso Hiso. invert_Return H.
  apply toISOString_Return in Hiso as (c & Hc & ->).
  unfold normalized. cbn. repeat (split; [first [assumption | reflexivity]|]).
  exists c. repeat split; auto.
  intros E1 E2. destruct (K2 E1 E2) as (c' & Hc' & ->).
  rewrite Hc in Hc'. now inversion Hc'.
Qed.

Lemma RevB_normalizeTask_Return engine t idx out :
  RevB.normalizeTask engine t idx = Return out -> normalized engine t out.
Proof.
  intros H. pose proof (RevB_normalizeTask_rowOk _ _ _ _ H) as Hrow.
  unfold RevB.normalizeTask in H.
  rewrite (Get_rowOk t "createdAt" Hrow) in H. cbn [bind] in H.
  invert_bind H as created Hcreated.
  rewrite (Get_rowOk t "completedAt" Hrow) in H. cbn [bind] in H.
  invert_bind H as completed Hcompleted.
  apply (completed_Return _ _ _ Hrow) in Hcompleted as (K1 & K2 & K3).
  rewrite !(Get_rowOk _ _ Hrow) in H. cbn [bind] in H.
  invert_bind H as iso Hiso. invert_Return H.
  apply toISOString_Return in Hiso as (c & Hc & ->).
  unfold normalized. cbn. repeat (split; [first [assumption | reflexivity]|]).
  exists c. repeat split; auto.
  intros E1 E2. destruct (K2 E1 E2) as (c' & Hc' & ->).
  rewrite Hc in Hc'. now inversion Hc'.
Qed.

(** ** Determinism and revenue *)

(** C1 (first revision, lines 45-70): the same input normalised at two
    readings of the clock one second apart gets different [createdAt] and
    [completedAt]: the fallback is [Date.now()] minus [idx + 1] days. *)
Theorem C1_RevA_depends_on_clock : forall engine,
  stamps (RevA.normalizeTasks engine clock2026 (JArray [rowDoneNoDates]))
    = Return [("2025-12-31T00:00:00.000Z", JString "2026-01-01T00:00:00.000Z")]
  /\ stamps (RevA.normalizeTasks engine (clock2026 + 1000) (JArray [rowDoneNoDates]))
    = Return [("2025-12-31T00:00:01.000Z", JString "2026-01-01T00:00:01.000Z")].
Proof. intros engine. split; vm_compute; reflexivity. Qed.

(** In the first revision the clock matters for the fallback only. *)
Lemma RevA_clock_only_in_fallback engine now1 now2 t idx :
  ToBoolean (field t "createdAt") = true ->
  RevA.normalizeTask engine now1 t idx = RevA.normalizeTask engine now2 t idx.
Proof.
  intros H. unfold RevA.normalizeTask.
  destruct (rowOk t) eqn:Hrow.
  - rewrite !(Get_rowOk _ _ Hrow). cbn [bind]. rewrite H. reflexivity.
  - rewrite !(Get_not_rowOk _ _ Hrow). reflexivity.
Qed.

(** The fallback of the second revision on the id "t-2001", on an engine
    in UTC: 2001 % 28 + 1 = 14, the 14th of January 2020. *)
Lemma RevB_fallback_t2001 engine :
  StringToNumber engine "2001" = 2001%float ->
  (forall t, LocalTZA engine t = 0) ->
  stamps (RevB.normalizeTasks engine (JArray [row2001]))
  = Return [("2020-01-14T00:00:00.000Z", JString "2020-01-15T00:00:00.000Z")].
Proof.
  intros Hnum Htz.
  unfold stamps, RevB.normalizeTasks, mapWithIndex, RevB.normalizeTask.
  cbn [Get row2001 lookup String.eqb Ascii.eqb Bool.eqb bind ToBoolean
       coalesce nullish].
  unfold RevB.stableDateFromId.
  change (removeNonDigits "t-2001") with "2001". rewrite Hnum.
  unfold newDate2020Jan.
  change (PrimFloat.is_nan
            (rem28 (if ToBoolean (JNumber 2001) then 2001%float else 1%float)
             + 1)%float) with false.
  cbv iota.
  change (truncate
            (rem28 (if ToBoolean (JNumber 2001) then 2001%float else 1%float)
             + 1)%float) with (Some 14).
  cbv iota beta zeta. rewrite Htz.
  vm_compute. reflexivity.
Qed.

(** The second revision never reads the clock: [RevB.normalizeTasks] is a
    function of the input and the engine alone, so a load resumed at two
    different times does the same. *)
Lemma RevB_load_ignores_clock engine gen now1 now2 r isMounted h :
  resume engine (fun _ => RevB.normalizeTasks engine) gen now1 r isMounted h
  = resume engine (fun _ => RevB.normalizeTasks engine) gen now2 r isMounted h.
Proof. reflexivity. Qed.

(** C2: the revenue a normalised record stores is the numeric coercion of
    the raw field as it is; when the coercion is NaN, NaN is stored (the
    [?? 0] never applies to a number). *)
Theorem C2_nan_revenue_is_stored : forall engine now t idx out,
  PrimFloat.is_nan (ToNumber engine (field t "revenue")) = true ->
  RevA.normalizeTask engine now t idx = Return out \/
  RevB.normalizeTask engine t idx = Return out ->
  revenue out = ToNumber engine (field t "revenue") /\
  PrimFloat.is_nan (revenue out) = true.
Proof.
  intros engine now t idx out Hnan [H | H].
  - apply RevA_normalizeTask_Return in H as (_ & Hrev & _).
    rewrite Hrev. auto.
  - apply RevB_normalizeTask_Return in H as (_ & Hrev & _).
    rewrite Hrev. auto.
Qed.

Lemma C2_nan_revenue_is_stored_witness :
  (forall engine,
     revenue (outNoRevenue (JString "")) = ToNumber engine (field rowNoRevenue "revenue") /\
     PrimFloat.is_nan (revenue (outNoRevenue (JString ""))) = true) /\
  (forall engine,
     revenue (outNoRevenue JUndefined) = ToNumber engine (field rowNoRevenue "revenue") /\
     PrimFloat.is_nan (revenue (outNoRevenue JUndefined)) = true).
Proof.
  split; intros engine.
  - apply (C2_nan_revenue_is_stored engine clock2026 rowNoRevenue 0%nat).
    + reflexivity.
    + left. vm_compute. reflexivity.
  - apply (C2_nan_revenue_is_stored engine clock2026 rowNoRevenue 0%nat).
    + reflexivity.
    + right. vm_compute. reflexivity.
Defined.

(** The string "abc": stored as whatever the engine's StringToNumber makes
    of it, which is NaN. *)
Lemma revenue_abc engine :
  (ts <- RevA.normalizeTasks engine clock2026 (JArray [rowRevenueAbc]) ;;
   Return (map revenue ts)) = Return [StringToNumber engine "abc"]
  /\ (ts <- RevB.normalizeTasks engine (JArray [rowRevenueAbc]) ;;
      Return (map revenue ts)) = Return [StringToNumber engine "abc"].
Proof. split; reflexivity. Qed.

(** ** timeTaken *)

Lemma clamp_positive x :
  PrimFloat.ltb 0 (if PrimFloat.ltb 0 x then x else 1%float) = true.
Proof. destruct (PrimFloat.ltb 0 x) eqn:E; [exact E | reflexivity]. Qed.

(** The normaliser of either revision does establish [timeTaken > 0]. *)
Lemma normalizeTask_timeTaken_positive engine now t idx out :
  RevA.normalizeTask engine now t idx = Return out \/
  RevB.normalizeTask engine t idx = Return out ->
  PrimFloat.ltb 0 (timeTaken out) = true.
Proof.
  intros [H | H];
    [apply RevA_normalizeTask_Return in H | apply RevB_normalizeTask_Return in H];
    destruct H as (_ & _ & Htime & _); rewrite Htime; apply clamp_positive.
Qed.

(** C3: [addTask] and [updateTask] test [timeTaken <= 0], which is false
    for NaN: a NaN [timeTaken] enters the store through either (in both
    revisions), and the record then fails [timeTaken > 0].  The second
    revision of [updateTask] moreover looks for the id again after the
    merge, so a patch that also changes the id keeps its [timeTaken] of -5,
    which the first revision replaces by 1. *)
Theorem C3_nan_timeTaken_enters_store :
  map positive (addTask clock2026 "uuid-1" draftNaN []) = [false]
  /\ map positive (RevAStore.updateTask clock2026 "t-1" patchNaN [taskTodo]) = [false]
  /\ map positive (RevBStore.updateTask clock2026 "t-1" patchNaN [taskTodo]) = [false]
  /\ map timeTaken (RevAStore.updateTask clock2026 "t-1" patchRename [taskTodo])
     = [1%float]
  /\ map timeTaken (RevBStore.updateTask clock2026 "t-1" patchRename [taskTodo])
     = [(-5)%float].
Proof. repeat split; vm_compute; reflexivity. Qed.

(** For any other number the mutations do keep the invariant. *)
Lemma addTask_positive now uuid task prev :
  PrimFloat.is_nan (draftTimeTaken task) = false ->
  forallb positive prev = true ->
  forallb positive (addTask now uuid task prev) = true.
Proof.
  intros Hn Hprev. unfold addTask. rewrite forallb_app, Hprev. cbn.
  rewrite andb_true_r. unfold positive. cbn.
  destruct (PrimFloat.leb (draftTimeTaken task) 0) eqn:E; [reflexivity|].
  revert Hn E. unfold PrimFloat.is_nan.
  rewrite leb_spec, ltb_spec, eqb_spec.
  rewrite negb_false_iff.
  unfold SFleb, SFltb, SFeqb.
  replace (Prim2SF 0) with (S754_zero false) by reflexivity.
  destruct (Prim2SF (draftTimeTaken task)) as [[|]|[|]| |[|] m e]; cbn;
    try discriminate; reflexivity.
Qed.

(** ** completedAt *)

(** C6: a returned record of [normalizeTasks] (either revision) keeps the
    raw [completedAt] when the record supplies one (a truthy value, the
    test of [||]); otherwise, when the status is "Done", its [completedAt]
    is the ISO text of its [createdAt] plus 24 hours; otherwise it is
    undefined. *)
Theorem C6_completedAt_rule : forall engine now t idx out,
  RevA.normalizeTask engine now t idx = Return out \/
  RevB.normalizeTask engine t idx = Return out ->
  exists created : Z,
    createdAt out = isoOfTime created /\
    (ToBoolean (field t "completedAt") = true ->
     completedAt out = field t "completedAt") /\
    (ToBoolean (field t "completedAt") = false ->
     strictEqString (field t "status") "Done" = true ->
     completedAt out = JString (isoOfTime (created + 24 * 3600 * 1000))) /\
    (ToBoolean (field t "completedAt") = false ->
     strictEqString (field t "status") "Done" = false ->
     completedAt out = JUndefined).
Proof.
  intros engine now t idx out [H | H];
    [apply RevA_normalizeTask_Return in H | apply RevB_normalizeTask_Return in H];
    destruct H as (_ & _ & _ & _ & c & H); exists c; exact H.
Qed.

Lemma C6_completedAt_rule_witness :
  (Engine -> completedAtRule rowDone2020 taskDone2020) /\
  (Engine -> completedAtRule rowDone2020 taskDone2020B).
Proof.
  split; intros engine.
  - apply (C6_completedAt_rule engine clock2026 rowDone2020 0%nat taskDone2020).
    left. vm_compute. reflexivity.
  - apply (C6_completedAt_rule engine clock2026 rowDone2020 0%nat taskDone2020B).
    right. vm_compute. reflexivity.
Defined.

(** ** Metrics on the empty collection *)

(** C8: on the empty collection the memo returns [INITIAL_METRICS] itself,
    whatever the helpers of [@/utils/logic] compute: all five numbers are 0
    and the grade is "Needs Improvement". *)
Theorem C8_empty_metrics :
  forall (computeTotalRevenue computeTimeEfficiency computeRevenuePerHour
            computeAverageROI : list Task -> float)
         (computePerformanceGrade : float -> string),
  metrics computeTotalRevenue computeTimeEfficiency computeRevenuePerHour
          computeAverageROI computePerformanceGrade [] = INITIAL_METRICS
  /\ totalRevenue INITIAL_METRICS = 0%float
  /\ totalTimeTaken INITIAL_METRICS = 0%float
  /\ timeEfficiencyPct INITIAL_METRICS = 0%float
  /\ revenuePerHour INITIAL_METRICS = 0%float
  /\ averageROI INITIAL_METRICS = 0%float
  /\ performanceGrade INITIAL_METRICS = "Needs Improvement".
Proof. intros. repeat split. Qed.

(** ** Length, order and aborts *)

Lemma mapWithIndex_Return {A B} (f : A -> nat -> Completion B) xs :
  forall idx out,
  mapWithIndex f idx xs = Return out ->
  List.length out = List.length xs /\
  forall i x, nth_error xs i = Some x ->
    exists y, nth_error out i = Some y /\ f x (idx + i)%nat = Return y.
Proof.
  induction xs as [|x0 rest IH]; intros idx out H; cbn in H.
  - invert_Return H. split; [reflexivity|]. intros [|i] x Hx; discriminate.
  - invert_bind H as y Hy. invert_bind H as ys Hys. invert_Return H.
    destruct (IH _ _ Hys) as (Hlen & Hnth). split; [cbn; now rewrite Hlen|].
    intros [|i] x Hx; cbn in Hx.
    + invert_Return Hx. exists y. rewrite Nat.add_0_r. auto.
    + destruct (Hnth i x Hx) as (y' & Hy' & Hf). exists y'. split; [exact Hy'|].
      now rewrite <- Nat.add_succ_comm.
Qed.

Lemma mapWithIndex_total {A B} (f : A -> nat -> Completion B) xs :
  forall idx,
  (forall i x, nth_error xs i = Some x -> exists y, f x (idx + i)%nat = Return y) ->
  exists out, mapWithIndex f idx xs = Return out.
Proof.
  induction xs as [|x0 rest IH]; intros idx Hall; cbn.
  - eauto.
  - destruct (Hall 0%nat x0 eq_refl) as (y & Hy). rewrite Nat.add_0_r in Hy.
    rewrite Hy. cbn.
    destruct (IH (S idx)) as (ys & Hys).
    + intros i x Hx. destruct (Hall (S i) x Hx) as (y' & Hy').
      exists y'. now rewrite Nat.add_succ_comm.
    + rewrite Hys. cbn. eauto.
Qed.

Lemma mapWithIndex_abort {A B} (f : A -> nat -> Completion B) xs :
  forall idx i x e,
  nth_error xs i = Some x -> f x (idx + i)%nat = Throw e ->
  exists e', mapWithIndex f idx xs = Throw e'.
Proof.
  induction xs as [|x0 rest IH]; intros idx [|i] x e Hx Hf; cbn in Hx; try discriminate.
  - invert_Return Hx. rewrite Nat.add_0_r in Hf. cbn. rewrite Hf. cbn. eauto.
  - cbn. destruct (f x0 idx) as [y|e0]; cbn; [|eauto].
    rewrite <- Nat.add_succ_comm in Hf.
    destruct (IH _ _ _ _ Hx Hf) as (e' & He'). rewrite He'. cbn. eauto.
Qed.

Lemma batchSpec_mapWithIndex f input :
  batchSpec f (match input with
               | JArray rows => mapWithIndex f 0 rows
               | _ => Return []
               end) input.
Proof.
  unfold batchSpec.
  destruct input as [| |b|x|s|rows|props]; cbn [isArray rowsOf];
    try (split; [reflexivity|]; split;
         [ intros out H; invert_Return H; split;
           [ reflexivity | intros [|i] row Hrow; discriminate ]
         | split; [ eauto | intros [|i] row e Hrow; discriminate ] ]).
  split; [discriminate|]. split; [|split].
  - intros out H. apply mapWithIndex_Return in H as (Hlen & Hnth).
    split; [exact Hlen | exact Hnth].
  - intros Hall. now apply mapWithIndex_total.
  - intros i row e Hrow Hf. now apply (mapWithIndex_abort f rows 0%nat i row e).
Qed.

(** C9, as the code has it: a value that is not an array normalises to the
    empty array; when [normalizeTasks] returns, the result has the length
    of the input array and its i-th record is the normalisation of the
    i-th row; it returns when every row normalises on its own, and a row
    that throws makes the whole call throw. *)
Theorem C9_length_order_and_abort : forall engine now input,
  batchSpec (RevA.normalizeTask engine now)
            (RevA.normalizeTasks engine now input) input
  /\ batchSpec (RevB.normalizeTask engine)
               (RevB.normalizeTasks engine input) input.
Proof.
  intros engine now input. split.
  - apply (batchSpec_mapWithIndex (RevA.normalizeTask engine now)).
  - apply (batchSpec_mapWithIndex (RevB.normalizeTask engine)).
Qed.

(** C9 fails as stated: after a good first row, a [null] row makes either
    revision throw a TypeError, a row whose [createdAt] is the number 1e16
    a RangeError, and (second revision) a row with a numeric id and no
    [createdAt] a TypeError; no array is returned. *)
Lemma C9_malformed_row_aborts :
  (forall engine now,
     RevA.normalizeTasks engine now (JArray [rowDone2020; JNull]) = Throw TypeError
     /\ RevA.normalizeTasks engine now (JArray [rowDone2020; rowCreatedOutOfRange])
        = Throw RangeError)
  /\ (forall engine,
        RevB.normalizeTasks engine (JArray [rowDone2020; JNull]) = Throw TypeError
        /\ RevB.normalizeTasks engine (JArray [rowDone2020; rowCreatedOutOfRange])
           = Throw RangeError
        /\ RevB.normalizeTasks engine (JArray [rowDone2020; rowNumericId])
           = Throw TypeError).
Proof.
  split; intros; repeat split; vm_compute; reflexivity.
Qed.

Lemma C9_length_order_and_abort_witness :
  (Engine ->
     List.length [taskDone2020; outNoRevenue (JString "")]
       = List.length (rowsOf (JArray [rowDone2020; rowNoRevenue])))
  /\ (forall engine,
        exists e', RevA.normalizeTasks engine clock2026
                     (JArray [rowDone2020; JUndefined]) = Throw e').
Proof.
  split; intros engine.
  - destruct (C9_length_order_and_abort engine clock2026
                (JArray [rowDone2020; rowNoRevenue])) as ((_ & H & _) & _).
    apply (H [taskDone2020; outNoRevenue (JString "")]). vm_compute. reflexivity.
  - destruct (C9_length_order_and_abort engine clock2026
                (JArray [rowDone2020; JUndefined])) as ((_ & _ & _ & H) & _).
    apply (H 1%nat JUndefined TypeError); reflexivity.
Defined.

(** ** Unknown ids *)

Lemma map_id_on {A} (f : A -> A) (l : list A) :
  (forall x, In x l -> f x = x) -> map f l = l.
Proof.
  induction l as [|a l IH]; intros H; cbn; [reflexivity|].
  rewrite (H a (or_introl eq_refl)), IH; [reflexivity|].
  intros x Hx. apply H. now right.
Qed.

Lemma RevA_updateTask_absent now id' patch prev :
  absent id' prev -> RevAStore.updateTask now id' patch prev = prev.
Proof.
  intros Habs. unfold RevAStore.updateTask. apply map_id_on.
  intros t Ht. specialize (Habs t Ht). unfold hasId in Habs. now rewrite Habs.
Qed.

Lemma RevB_updateTask_absent now id' patch prev :
  absent id' prev -> RevBStore.updateTask now id' patch prev = prev.
Proof.
  intros Habs. unfold RevBStore.updateTask.
  rewrite (map_id_on _ prev).
  - apply map_id_on. intros t Ht. specialize (Habs t Ht).
    unfold hasId in Habs. now rewrite Habs.
  - intros t Ht. specialize (Habs t Ht). unfold hasId in Habs. now rewrite Habs.
Qed.

Lemma filter_all {A} (p : A -> bool) (l : list A) :
  (forall x, In x l -> p x = true) -> filter p l = l.
Proof.
  induction l as [|a l IH]; intros H; cbn; [reflexivity|].
  rewrite (H a (or_introl eq_refl)), IH; [reflexivity|].
  intros x Hx. apply H. now right.
Qed.

Lemma find_none {A} (p : A -> bool) (l : list A) :
  (forall x, In x l -> p x = false) -> find p l = None.
Proof.
  induction l as [|a l IH]; intros H; cbn; [reflexivity|].
  rewrite (H a (or_introl eq_refl)). apply IH.
  intros x Hx. apply H. now right.
Qed.

Lemma deleteTask_absent id' s :
  absent id' (tasks s) ->
  deleteTask id' s = {| tasks := tasks s; lastDeleted := None |}.
Proof.
  intros Habs. unfold deleteTask. f_equal.
  - apply filter_all. intros t Ht. specialize (Habs t Ht).
    unfold hasId in Habs. now rewrite Habs.
  - now apply find_none.
Qed.

(** The slot is only ever filled with a record of that id taken from the
    collection, and the record is gone from the collection. *)
Lemma deleteTask_slot id' s t :
  lastDeleted (deleteTask id' s) = Some t ->
  In t (tasks s) /\ hasId id' t = true /\ ~ In t (tasks (deleteTask id' s)).
Proof.
  cbn. intros H. apply find_some in H as (Hin & Hid).
  repeat split; auto.
  intros Hf. apply filter_In in Hf as (_ & Hf).
  unfold hasId in Hid. rewrite Hid in Hf. discriminate.
Qed.

Lemma setTasks_same h :
  setTasks h (tasks (store h)) = h.
Proof. destruct h as [[ts ld] l e f i]. reflexivity. Qed.

(** C4, as the code has it: for an id that no record of the collection
    has, [updateTask] (either revision) changes nothing at all, and
    [deleteTask] leaves the collection as it is, raises nothing, and sets
    the last-deleted slot to null (it is unchanged only if it was empty).
    For any id, the slot is filled only with a record of that id that was
    in the collection and is removed from it. *)
Theorem C4_unknown_id : forall engine normalizeTasks generateSalesTasks h now id' patch,
  (absent id' (tasks (store h)) ->
   step engine normalizeTasks RevAStore.updateTask generateSalesTasks h
        (CallUpdate now id' patch) = (h, [])
   /\ step engine normalizeTasks RevBStore.updateTask generateSalesTasks h
           (CallUpdate now id' patch) = (h, [])
   /\ forall updateTask,
        step engine normalizeTasks updateTask generateSalesTasks h (CallDelete id')
        = (setStore h {| tasks := tasks (store h); lastDeleted := None |}, []))
  /\ (forall t, lastDeleted (deleteTask id' (store h)) = Some t ->
        In t (tasks (store h)) /\ hasId id' t = true /\
        ~ In t (tasks (deleteTask id' (store h)))).
Proof.
  intros engine norm gen h now id' patch. split.
  - intros Habs. cbn [step]. repeat split.
    + now rewrite RevA_updateTask_absent, setTasks_same.
    + now rewrite RevB_updateTask_absent, setTasks_same.
    + intros _. now rewrite deleteTask_absent.
  - intros t. apply deleteTask_slot.
Qed.

(** C4 fails as stated: after [deleteTask("t-1")] the slot holds the
    deleted record; [deleteTask("ghost")], an id no record has, then
    overwrites the slot with null. *)
Lemma C4_delete_unknown_clears_slot :
  lastDeleted (deleteTask "t-1" storeTwo) = Some taskTodo
  /\ forallb (fun t => negb (hasId "ghost" t)) (tasks (deleteTask "t-1" storeTwo)) = true
  /\ deleteTask "ghost" (deleteTask "t-1" storeTwo)
     = {| tasks := [taskOther]; lastDeleted := None |}.
Proof. repeat split. Qed.

Lemma C4_unknown_id_witness :
  (forall engine normalizeTasks generateSalesTasks,
     step engine normalizeTasks RevAStore.updateTask generateSalesTasks hookTwo
          (CallUpdate clock2026 "ghost" patchNaN) = (hookTwo, []))
  /\ (forall engine normalizeTasks updateTask generateSalesTasks,
        step engine normalizeTasks updateTask generateSalesTasks hookTwo
             (CallDelete "ghost")
        = (setStore hookTwo {| tasks := [taskOther]; lastDeleted := None |}, [])).
Proof.
  assert (Habs : absent "ghost" (tasks (store hookTwo))).
  { intros t [<- | []]. reflexivity. }
  split; intros.
  - apply (C4_unknown_id engine normalizeTasks generateSalesTasks hookTwo
             clock2026 "ghost" patchNaN); exact Habs.
  - apply (C4_unknown_id engine normalizeTasks generateSalesTasks hookTwo
             clock2026 "ghost" patchNaN); exact Habs.
Defined.

(** ** Delete, then undo *)

Lemma find_hd_filter {A} (p : A -> bool) (l : list A) :
  find p l = hd_error (filter p l).
Proof.
  induction l as [|a l IH]; cbn; [reflexivity|].
  destruct (p a); [reflexivity | exact IH].
Qed.

Lemma filter_split_Permutation {A} (p : A -> bool) (l : list A) :
  Permutation (filter (fun x => negb (p x)) l ++ filter p l)%list l.
Proof.
  induction l as [|a l IH]; cbn; [constructor|].
  destruct (p a); cbn.
  - apply Permutation_sym, Permutation_cons_app, Permutation_sym, IH.
  - now constructor.
Qed.

(** C5, as the code has it: when exactly one record has the id,
    [deleteTask(id)] followed by [undoDelete()] gives a collection with
    the same members (the record moves to the end) and an empty slot, and
    one more [undoDelete()] changes nothing. *)
Theorem C5_delete_then_undo : forall id' s,
  occursOnce id' (tasks s) ->
  Permutation (tasks (undoDelete (deleteTask id' s))) (tasks s)
  /\ lastDeleted (undoDelete (deleteTask id' s)) = None
  /\ undoDelete (undoDelete (deleteTask id' s)) = undoDelete (deleteTask id' s).
Proof.
  intros id' [ts ld] Honce. unfold occursOnce in Honce. cbn [tasks] in Honce.
  unfold undoDelete, deleteTask. cbn [tasks lastDeleted].
  rewrite find_hd_filter. fold (hasId id').
  destruct (filter (hasId id') ts) as [|x [|y rest]] eqn:Hf; try discriminate.
  cbn [hd_error tasks lastDeleted]. repeat split.
  rewrite <- Hf. apply (filter_split_Permutation (hasId id')).
Qed.

Lemma C5_delete_then_undo_witness :
  Permutation (tasks (undoDelete (deleteTask "t-1" storeTwo))) (tasks storeTwo)
  /\ lastDeleted (undoDelete (deleteTask "t-1" storeTwo)) = None
  /\ undoDelete (undoDelete (deleteTask "t-1" storeTwo))
     = undoDelete (deleteTask "t-1" storeTwo).
Proof. apply (C5_delete_then_undo "t-1" storeTwo). reflexivity. Defined.

(** C5 fails as stated: two records with the same id (added with an
    explicit id); [deleteTask] removes both, the slot keeps the first, and
    [undoDelete] brings back one record only. *)
Lemma C5_duplicate_id_loses_a_record :
  map title (tasks storeSameIdTwice) = [JString "first"; JString "second"]
  /\ map (hasId "t-1") (tasks storeSameIdTwice) = [true; true]
  /\ map title (tasks (undoDelete (deleteTask "t-1" storeSameIdTwice)))
     = [JString "first"].
Proof. repeat split. Qed.

(** ** Moving into Done *)

Lemma completedAt_withTimeTaken t x :
  completedAt (withTimeTaken t x) = completedAt t.
Proof. reflexivity. Qed.

Lemma status_withTimeTaken t x : status (withTimeTaken t x) = status t.
Proof. reflexivity. Qed.

(** The record [updateTask] leaves at the place of a record with the id. *)
Lemma RevA_updateTask_nth now id' patch prev i t :
  nth_error prev i = Some t -> hasId id' t = true ->
  exists t', nth_error (RevAStore.updateTask now id' patch prev) i = Some t'
    /\ completedAt t' = completedAt (stampCompleted now t (merge t patch))
    /\ status t' = status (stampCompleted now t (merge t patch)).
Proof.
  intros Hnth Hid. unfold RevAStore.updateTask.
  rewrite nth_error_map, Hnth. cbn [option_map].
  unfold hasId in Hid. rewrite Hid. cbn [negb].
  eexists. split; [reflexivity|].
  destruct (PrimFloat.leb _ 0); split; reflexivity.
Qed.

Lemma RevB_updateTask_nth now id' patch prev i t :
  nth_error prev i = Some t -> hasId id' t = true ->
  exists t', nth_error (RevBStore.updateTask now id' patch prev) i = Some t'
    /\ completedAt t' = completedAt (stampCompleted now t (merge t patch))
    /\ status t' = status (stampCompleted now t (merge t patch)).
Proof.
  intros Hnth Hid. unfold RevBStore.updateTask.
  rewrite !nth_error_map, Hnth. cbn [option_map].
  unfold hasId in Hid. rewrite Hid. cbn [negb].
  eexists. split; [reflexivity|].
  destruct (_ && _); split; reflexivity.
Qed.

Lemma stampCompleted_into_Done now t patch :
  strictEqString (status t) "Done" = false ->
  patchStatus patch = Some (JString "Done") ->
  patchCompletedAt patch = None ->
  completedAt (stampCompleted now t (merge t patch))
    = (if ToBoolean (completedAt t) then completedAt t
       else JString (isoOfTime now))
  /\ status (stampCompleted now t (merge t patch)) = JString "Done".
Proof.
  intros Hst Hps Hpc. unfold stampCompleted, merge.
  cbn [status completedAt]. rewrite Hst, Hps, Hpc.
  cbn [orElse negb andb]. change (strictEqString (JString "Done") "Done") with true.
  cbn [andb].
  destruct (ToBoolean (completedAt t)); cbn; auto.
Qed.

(** C7, as the code has it: for a record of the store whose status is not
    "Done" and a patch that sets the status to "Done" and has no
    [completedAt], [updateTask] (either revision) leaves a "Done" record
    whose [completedAt] is the ISO text of the clock at the call when the
    record had none (a falsy value), and the record's own [completedAt]
    when it had one. *)
Theorem C7_stamp_on_Done : forall now id' patch prev i t,
  nth_error prev i = Some t ->
  hasId id' t = true ->
  strictEqString (status t) "Done" = false ->
  patchStatus patch = Some (JString "Done") ->
  patchCompletedAt patch = None ->
  (exists t', nth_error (RevAStore.updateTask now id' patch prev) i = Some t'
     /\ status t' = JString "Done"
     /\ completedAt t' = (if ToBoolean (completedAt t) then completedAt t
                          else JString (isoOfTime now)))
  /\ (exists t', nth_error (RevBStore.updateTask now id' patch prev) i = Some t'
        /\ status t' = JString "Done"
        /\ completedAt t' = (if ToBoolean (completedAt t) then completedAt t
                             else JString (isoOfTime now))).
Proof.
  intros now id' patch prev i t Hnth Hid Hst Hps Hpc.
  destruct (stampCompleted_into_Done now t patch Hst Hps Hpc) as (Hc & Hs).
  split.
  - destruct (RevA_updateTask_nth now id' patch prev i t Hnth Hid)
      as (t' & H1 & H2 & H3).
    exists t'. rewrite H2, H3. auto.
  - destruct (RevB_updateTask_nth now id' patch prev i t Hnth Hid)
      as (t' & H1 & H2 & H3).
    exists t'. rewrite H2, H3. auto.
Qed.

Lemma C7_stamp_on_Done_witness :
  (exists t', nth_error (RevAStore.updateTask clock2026 "t-1"
                           (patchStatusOnly "Done") [taskTodo; taskOther]) 0
              = Some t'
     /\ status t' = JString "Done"
     /\ completedAt t' = JString "2026-01-01T00:00:00.000Z")
  /\ (exists t', nth_error (RevBStore.updateTask clock2026 "t-1"
                              (patchStatusOnly "Done") [taskTodo; taskOther]) 0
                 = Some t'
        /\ status t' = JString "Done"
        /\ completedAt t' = JString "2026-01-01T00:00:00.000Z").
Proof.
  apply (C7_stamp_on_Done clock2026 "t-1" (patchStatusOnly "Done")
           [taskTodo; taskOther] 0%nat taskTodo); reflexivity.
Defined.

(** C7 fails as stated.  First, a record that was "Done", was moved back
    to "In Progress" and is moved to "Done" again keeps its old
    [completedAt]: the patch supplies none, yet no stamp is applied.
    Second, the stamp is the clock at the call, which is before the
    [createdAt] of a record dated ahead of the clock. *)
Lemma C7_no_stamp_and_stamp_before_createdAt :
  completedTexts
    (RevAStore.updateTask clock2026 "t-1" (patchStatusOnly "Done")
       (RevAStore.updateTask 1600000000000 "t-1" (patchStatusOnly "In Progress")
          [taskDone2020]))
    = [JString "2020-01-02T00:00:00.000Z"]
  /\ completedTexts
       (RevBStore.updateTask clock2026 "t-1" (patchStatusOnly "Done")
          (RevBStore.updateTask 1600000000000 "t-1" (patchStatusOnly "In Progress")
             [taskDone2020]))
     = [JString "2020-01-02T00:00:00.000Z"]
  /\ isoOfTime clock2026 = "2026-01-01T00:00:00.000Z"
  /\ map (fun t => (createdAt t, completedAt t))
       (RevAStore.updateTask clock2026 "t-9" (patchStatusOnly "Done") [taskFuture])
     = [("2100-01-01T00:00:00.000Z", JString "2026-01-01T00:00:00.000Z")]
  /\ map (fun t => (createdAt t, completedAt t))
       (RevBStore.updateTask clock2026 "t-9" (patchStatusOnly "Done") [taskFuture])
     = [("2100-01-01T00:00:00.000Z", JString "2026-01-01T00:00:00.000Z")].
Proof. repeat split; vm_compute; reflexivity. Qed.

(** ** The one-shot loading effect *)

Lemma count_app p l1 l2 :
  count p (l1 ++ l2)%list = (count p l1 + count p l2)%nat.
Proof. unfold count. now rewrite filter_app, length_app. Qed.

Section LifecycleFacts.
Variable engine : Engine.
Variable normalizeTasks : Z -> JsValue -> Completion (list Task).
Variable updateTask : Z -> string -> Patch -> list Task -> list Task.
Variable generateSalesTasks : nat -> list Task.

Lemma resume_budget now r isMounted h :
  let '(h1, log) := resume engine normalizeTasks generateSalesTasks now r isMounted h in
  fetchedRef h1 = fetchedRef h /\ inflight h1 = inflight h /\
  count isFetch log = 0%nat /\
  (count isNormalize log <= 1)%nat /\
  (count isSeed log <= count isNormalize log)%nat.
Proof.
  destruct r as [m | st | body]; cbn.
  - destruct isMounted; cbn; repeat split; lia.
  - destruct isMounted; cbn; repeat split; lia.
  - destruct (normalizeTasks now body) as [ts | e];
      destruct isMounted; cbn; repeat split; lia.
Qed.

Lemma step_budget h ev :
  let '(h1, log) := step engine normalizeTasks updateTask generateSalesTasks h ev in
  (count isFetch log + fetchBudget h1 <= fetchBudget h)%nat /\
  (count isNormalize log + loadBudget h1 <= loadBudget h)%nat /\
  (count isSeed log <= count isNormalize log)%nat.
Proof.
  unfold loadBudget, fetchBudget.
  destruct ev as [| | now r | now uuid task | now id' patch | id' | |];
    cbn [step]; try (cbn; lia).
  - unfold effect. destruct (fetchedRef h) eqn:E; cbn; rewrite ?E; cbn; try lia.
    rewrite length_app. cbn. lia.
  - cbn. rewrite length_map. lia.
  - destruct (inflight h) as [|m rest] eqn:E; [cbn; rewrite E; cbn; lia|].
    pose proof (resume_budget now r m (setInflight h rest)) as H.
    destruct (resume _ _ _ now r m (setInflight h rest)) as [h1 log].
    destruct H as (Hf & Hi & H0 & H1 & H2).
    rewrite Hf, Hi, H0. cbn. lia.
Qed.

Lemma run_budget evs : forall h,
  let '(h1, log) := run engine normalizeTasks updateTask generateSalesTasks h evs in
  (count isFetch log <= fetchBudget h)%nat /\
  (count isNormalize log <= loadBudget h)%nat /\
  (count isSeed log <= count isNormalize log)%nat.
Proof.
  induction evs as [|ev rest IH]; intros h; cbn [run].
  - cbn. lia.
  - pose proof (step_budget h ev) as Hs.
    destruct (step _ _ _ _ h ev) as [h1 log1].
    specialize (IH h1).
    destruct (run _ _ _ _ h1 rest) as [h2 log2].
    rewrite !count_app. lia.
Qed.
End LifecycleFacts.

(** C10: in a session of one hook instance, however often React calls the
    effect and its cleanup and whenever the load resumes, [fetch] is called
    at most once, so are [normalizeTasks] and the seeding [setTasks] of the
    loader: the guard on [fetchedRef] lets one [load()] start. *)
Theorem C10_fetch_at_most_once :
  forall engine normalizeTasks updateTask generateSalesTasks evs,
  let log := snd (run engine normalizeTasks updateTask generateSalesTasks
                      initialHook evs) in
  (count isFetch log <= 1)%nat /\
  (count isNormalize log <= 1)%nat /\
  (count isSeed log <= 1)%nat.
Proof.
  intros engine norm upd gen evs. cbv zeta.
  pose proof (run_budget engine norm upd gen evs initialHook) as H.
  destruct (run engine norm upd gen initialHook evs) as [h log].
  unfold loadBudget, fetchBudget in H. cbn [snd initialHook fetchedRef inflight List.length Nat.add] in *.
  lia.
Qed.

(** The remount of React's strict mode (effect, cleanup, effect) before the
    load resumes: one fetch and one normalisation, and, the cleanup having
    cleared [isMounted], no seeding: the collection stays empty and
    [loading] stays true. *)
Lemma remount_before_resume engine updateTask generateSalesTasks :
  run engine (fun _ => RevB.normalizeTasks engine) updateTask generateSalesTasks
      initialHook
      [EffectRuns; CleanupRuns; EffectRuns;
       LoadSettles clock2026 (Json (JArray [rowDone2020]))]
  = ({| store := {| tasks := []; lastDeleted := None |}; loading := true;
        error := JNull; fetchedRef := true; inflight := [] |},
     [DidFetch; DidNormalize]).
Proof. reflexivity. Qed.

(** The effect called three times with a cleanup in between (a remount):
    one fetch. *)
Lemma effect_thrice engine normalizeTasks updateTask generateSalesTasks :
  snd (run engine normalizeTasks updateTask generateSalesTasks initialHook
           [EffectRuns; CleanupRuns; EffectRuns; EffectRuns])
  = [DidFetch].
Proof. reflexivity. Qed.

(** * Further properties of the hook *)

(** ** When the normaliser throws *)






(** X3 (second revision): a row with no usable [createdAt] whose [id] is
    neither missing nor a string makes the callback throw a TypeError
    ([id.replace] is not a function). *)
Theorem X3_RevB_non_string_id_throws : forall engine t idx,
  rowOk t = true ->
  ToBoolean (field t "createdAt") = false ->
  nullish (field t "id") = false ->
  isString (field t "id") = false ->
  RevB.normalizeTask engine t idx = Throw TypeError.
Proof.
  intros engine t idx Hrow Hcr Hnull Hstr.
  unfold RevB.normalizeTask.
  rewrite !(Get_rowOk _ _ Hrow). cbn [bind]. rewrite Hcr. cbn [bind].
  unfold coalesce. rewrite Hnull.
  destruct (field t "id"); try discriminate; reflexivity.
Qed.

Lemma X3_RevB_non_string_id_throws_witness :
  (forall engine, RevB.normalizeTask engine rowNumericId 0 = Throw TypeError)
  /\ (forall engine, RevB.normalizeTask engine rowNumericId 5 = Throw TypeError).
Proof.
  split; intros engine.
  - apply (X3_RevB_non_string_id_throws engine rowNumericId 0%nat); reflexivity.
  - apply (X3_RevB_non_string_id_throws engine rowNumericId 5%nat); reflexivity.
Defined.

(** X4: on a row that has a [createdAt], a string [id], a string [title]
    and [notes], the two revisions of the callback do the same, whatever
    the clock and the position. *)
Theorem X4_revisions_agree_on_complete_rows : forall engine now t idx,
  ToBoolean (field t "createdAt") = true ->
  isString (field t "id") = true ->
  isString (field t "title") = true ->
  nullish (field t "notes") = false ->
  RevA.normalizeTask engine now t idx = RevB.normalizeTask engine t idx.
Proof.
  intros engine now t idx Hcr Hid Htitle Hnotes.
  unfold RevA.normalizeTask, RevB.normalizeTask.
  destruct (rowOk t) eqn:Hrow.
  - rewrite !(Get_rowOk _ _ Hrow). cbn [bind]. rewrite Hcr. cbn [bind].
    unfold coalesce. rewrite Hnotes.
    destruct (field t "id") as [| | | |i| |]; try discriminate.
    destruct (field t "title") as [| | | |ti| |]; try discriminate.
    reflexivity.
  - now rewrite !(Get_not_rowOk _ _ Hrow).
Qed.

Lemma X4_revisions_agree_on_complete_rows_witness :
  (forall engine,
     RevA.normalizeTask engine clock2026 rowComplete 0
     = RevB.normalizeTask engine rowComplete 0)
  /\ (forall engine,
        RevB.normalizeTask engine rowComplete 0 = Return taskComplete).
Proof.
  split; intros engine.
  - apply (X4_revisions_agree_on_complete_rows engine clock2026 rowComplete 0%nat);
      reflexivity.
  - vm_compute. reflexivity.
Defined.

(** ** The normalised batch *)

Lemma forallb_nth_error {A} (p : A -> bool) (l : list A) :
  (forall i x, nth_error l i = Some x -> p x = true) -> forallb p l = true.
Proof.
  intros H. apply forallb_forall. intros x Hx.
  apply In_nth_error in Hx as (i & Hi). exact (H i x Hi).
Qed.

Lemma nth_error_lt_Some {A} (l : list A) i :
  (i < List.length l)%nat -> exists x, nth_error l i = Some x.
Proof.
  intros H. destruct (nth_error l i) eqn:E; [eauto|].
  apply nth_error_None in E. lia.
Qed.

Lemma mapWithIndex_outputs {A B} (f : A -> nat -> Completion B) xs idx out :
  mapWithIndex f idx xs = Return out ->
  forall j y, nth_error out j = Some y ->
    exists x, nth_error xs j = Some x /\ f x (idx + j)%nat = Return y.
Proof.
  intros H j y Hy. apply mapWithIndex_Return in H as (Hlen & Hnth).
  assert (Hj : (j < List.length xs)%nat).
  { rewrite <- Hlen. apply nth_error_Some. congruence. }
  destruct (nth_error_lt_Some xs j Hj) as (x & Hx).
  destruct (Hnth j x Hx) as (y' & Hy' & Hf).
  exists x. split; [exact Hx|]. congruence.
Qed.

(** X5: every record of an array that [normalizeTasks] returns (either
    revision) has [timeTaken > 0], and its [status] and [priority] are the
    raw values of its row, untouched. *)
Theorem X5_batch_timeTaken_positive : forall engine now input out,
  RevA.normalizeTasks engine now input = Return out \/
  RevB.normalizeTasks engine input = Return out ->
  forallb positive out = true
  /\ forall j o, nth_error out j = Some o ->
       exists row, nth_error (rowsOf input) j = Some row
                   /\ status o = field row "status".
Proof.
  intros engine now input out H.
  assert (Hrows : forall j o, nth_error out j = Some o ->
            exists row, nth_error (rowsOf input) j = Some row /\
              (RevA.normalizeTask engine now row j = Return o \/
               RevB.normalizeTask engine row j = Return o)).
  { intros j o Ho. destruct H as [H | H];
      destruct input as [| |b|x|s|rows|props]; cbn in H;
      try (invert_Return H; destruct j; discriminate);
      destruct (mapWithIndex_outputs _ _ _ _ H j o Ho) as (row & Hrow & Hf);
      exists row; cbn [rowsOf]; auto. }
  split.
  - apply forallb_nth_error. intros j o Ho.
    destruct (Hrows j o Ho) as (row & _ & Hf).
    exact (normalizeTask_timeTaken_positive engine now row j o Hf).
  - intros j o Ho. destruct (Hrows j o Ho) as (row & Hrow & [Hf | Hf]);
      exists row; split; auto.
    + now apply RevA_normalizeTask_Return in Hf as (_ & _ & _ & Hs & _).
    + now apply RevB_normalizeTask_Return in Hf as (_ & _ & _ & Hs & _).
Qed.

Lemma X5_batch_timeTaken_positive_witness :
  (Engine ->
     forallb positive [taskDone2020; outNoRevenue (JString "")] = true
     /\ forall j o, nth_error [taskDone2020; outNoRevenue (JString "")] j = Some o ->
          exists row, nth_error (rowsOf (JArray [rowDone2020; rowNoRevenue])) j = Some row
                      /\ status o = field row "status")
  /\ timeTaken (outNoRevenue (JString "")) = 1%float.
Proof.
  split; [intros engine | reflexivity].
  apply (X5_batch_timeTaken_positive engine clock2026
           (JArray [rowDone2020; rowNoRevenue])).
  left. vm_compute. reflexivity.
Defined.

Lemma mapWithIndex_app {A B} (f : A -> nat -> Completion B) xs ys :
  (forall x i j, f x i = f x j) ->
  forall i j,
  mapWithIndex f i (xs ++ ys)%list
  = (a <- mapWithIndex f i xs ;; b <- mapWithIndex f j ys ;; Return (a ++ b)%list).
Proof.
  intros Hf. induction xs as [|x rest IH]; intros i j; cbn.
  - revert i j. induction ys as [|y rest IH]; intros i j; cbn; [reflexivity|].
    rewrite (Hf y i j). destruct (f y j); cbn; [|reflexivity].
    specialize (IH (S i) (S j)). cbn in IH.
    destruct (mapWithIndex f (S i) rest), (mapWithIndex f (S j) rest);
      cbn in *; congruence.
  - destruct (f x i); cbn; [|reflexivity].
    rewrite (IH (S i) j).
    destruct (mapWithIndex f (S i) rest); cbn; [|reflexivity].
    destruct (mapWithIndex f j ys); reflexivity.
Qed.

(** X6 (second revision): a record does not depend on the position of its
    row, so normalising two arrays one after the other is normalising each
    on its own: the result is the concatenation, and the call throws when
    either part does. *)
Theorem X6_RevB_normalizeTasks_app : forall engine xs ys,
  RevB.normalizeTasks engine (JArray (xs ++ ys))
  = (a <- RevB.normalizeTasks engine (JArray xs) ;;
     b <- RevB.normalizeTasks engine (JArray ys) ;;
     Return (a ++ b)%list).
Proof.
  intros engine xs ys. cbn [RevB.normalizeTasks].
  apply mapWithIndex_app. reflexivity.
Qed.

(** The first revision is not so: the same row at two positions gets two
    different fallback dates. *)
Lemma RevA_position_matters engine :
  stamps (RevA.normalizeTasks engine clock2026 (JArray [rowDoneNoDates; rowDoneNoDates]))
  = Return [("2025-12-31T00:00:00.000Z", JString "2026-01-01T00:00:00.000Z");
            ("2025-12-30T00:00:00.000Z", JString "2025-12-31T00:00:00.000Z")].
Proof. vm_compute. reflexivity. Qed.

(** ** updateTask *)

Lemma stampCompleted_id now t m : id (stampCompleted now t m) = id m.
Proof. unfold stampCompleted. destruct (_ && _); reflexivity. Qed.

Lemma stampCompleted_timeTaken now t m :
  timeTaken (stampCompleted now t m) = timeTaken m.
Proof. unfold stampCompleted. destruct (_ && _); reflexivity. Qed.

Lemma strictEqString_refl s : strictEqString (JString s) s = true.
Proof. cbn. apply String.eqb_refl. Qed.

Lemma strictEqString_true v s : strictEqString v s = true -> v = JString s.
Proof.
  destruct v; cbn; try discriminate. intros H.
  apply String.eqb_eq in H. now subst.
Qed.

Lemma merged_keeps_id id' t patch :
  hasId id' t = true -> patchKeepsId id' patch = true ->
  hasId id' (merge t patch) = true.
Proof.
  unfold hasId, patchKeepsId, merge. cbn [id].
  destruct (patchId patch); cbn [orElse]; auto.
Qed.

(** X7: [updateTask(id, patch)] (either revision) never changes the number
    of records, and leaves every record with another id as it is and where
    it is. *)
Theorem X7_updateTask_frame : forall now id' patch prev,
  List.length (RevAStore.updateTask now id' patch prev) = List.length prev
  /\ List.length (RevBStore.updateTask now id' patch prev) = List.length prev
  /\ forall i t, nth_error prev i = Some t -> hasId id' t = false ->
       nth_error (RevAStore.updateTask now id' patch prev) i = Some t
       /\ nth_error (RevBStore.updateTask now id' patch prev) i = Some t.
Proof.
  intros now id' patch prev. unfold RevAStore.updateTask, RevBStore.updateTask.
  rewrite !length_map. split; [reflexivity|]. split; [reflexivity|].
  intros i t Hnth Hid. unfold hasId in Hid.
  split; rewrite !nth_error_map, Hnth; cbn [option_map]; rewrite Hid;
    cbn [negb]; rewrite ?Hid; reflexivity.
Qed.

Lemma X7_updateTask_frame_witness :
  nth_error (RevAStore.updateTask clock2026 "t-1" patchTitleTime [taskTodo; taskOther]) 1
    = Some taskOther
  /\ nth_error (RevBStore.updateTask clock2026 "t-1" patchTitleTime [taskTodo; taskOther]) 1
     = Some taskOther.
Proof.
  apply (X7_updateTask_frame clock2026 "t-1" patchTitleTime [taskTodo; taskOther]);
    reflexivity.
Defined.

Lemma RevB_updateTask_as_RevA now id' patch prev :
  patchKeepsId id' patch = true ->
  RevBStore.updateTask now id' patch prev
  = RevAStore.updateTask now id' patch prev.
Proof.
  intros Hkeep. unfold RevBStore.updateTask, RevAStore.updateTask.
  rewrite map_map. apply map_ext. intros t.
  destruct (strictEqString (id t) id') eqn:E; cbn [negb].
  - pose proof (merged_keeps_id id' t patch E Hkeep) as Hm.
    unfold hasId in Hm. rewrite stampCompleted_id, Hm. reflexivity.
  - rewrite E. reflexivity.
Qed.

(** X8: the two revisions of [updateTask] return the same collection
    whenever the patch has no [id], or carries the very id it is applied
    to. *)
Theorem X8_updateTask_revisions_agree : forall now id' patch prev,
  patchKeepsId id' patch = true ->
  RevBStore.updateTask now id' patch prev
  = RevAStore.updateTask now id' patch prev.
Proof. intros. now apply RevB_updateTask_as_RevA. Qed.

Lemma X8_updateTask_revisions_agree_witness :
  RevBStore.updateTask clock2026 "t-1" patchTitleTime [taskTodo; taskOther]
  = RevAStore.updateTask clock2026 "t-1" patchTitleTime [taskTodo; taskOther].
Proof.
  apply (X8_updateTask_revisions_agree clock2026 "t-1" patchTitleTime).
  reflexivity.
Defined.

(** X9: when a "Done" record is patched without [completedAt], its
    [completedAt] stays as it was whatever status the patch sets: leaving
    "Done" does not clear it (either revision). *)
Theorem X9_leaving_Done_keeps_completedAt : forall now id' patch prev i t,
  nth_error prev i = Some t ->
  hasId id' t = true ->
  strictEqString (status t) "Done" = true ->
  patchCompletedAt patch = None ->
  (exists t', nth_error (RevAStore.updateTask now id' patch prev) i = Some t'
     /\ completedAt t' = completedAt t
     /\ status t' = orElse (patchStatus patch) (status t))
  /\ (exists t', nth_error (RevBStore.updateTask now id' patch prev) i = Some t'
        /\ completedAt t' = completedAt t
        /\ status t' = orElse (patchStatus patch) (status t)).
Proof.
  intros now id' patch prev i t Hnth Hid Hdone Hpc.
  assert (Hs : stampCompleted now t (merge t patch) = merge t patch).
  { unfold stampCompleted. now rewrite Hdone. }
  assert (Hc : completedAt (merge t patch) = completedAt t).
  { unfold merge. cbn [completedAt]. now rewrite Hpc. }
  split.
  - destruct (RevA_updateTask_nth now id' patch prev i t Hnth Hid)
      as (t' & H1 & H2 & H3).
    exists t'. rewrite H2, H3, Hs, Hc. auto.
  - destruct (RevB_updateTask_nth now id' patch prev i t Hnth Hid)
      as (t' & H1 & H2 & H3).
    exists t'. rewrite H2, H3, Hs, Hc. auto.
Qed.

Lemma X9_leaving_Done_keeps_completedAt_witness :
  (exists t', nth_error (RevAStore.updateTask clock2026 "t-1"
                           (patchStatusOnly "In Progress") [taskDone2020]) 0
              = Some t'
     /\ completedAt t' = JString "2020-01-02T00:00:00.000Z"
     /\ status t' = JString "In Progress")
  /\ (exists t', nth_error (RevBStore.updateTask clock2026 "t-1"
                              (patchStatusOnly "In Progress") [taskDone2020]) 0
                 = Some t'
        /\ completedAt t' = JString "2020-01-02T00:00:00.000Z"
        /\ status t' = JString "In Progress").
Proof.
  apply (X9_leaving_Done_keeps_completedAt clock2026 "t-1"
           (patchStatusOnly "In Progress") [taskDone2020] 0%nat taskDone2020);
    reflexivity.
Defined.

(** ** deleteTask, undoDelete, addTask together *)

Lemma filter_filter_other (a b : string) (ts : list Task) :
  a <> b ->
  filter (hasId b) (filter (fun t => negb (hasId a t)) ts) = filter (hasId b) ts.
Proof.
  intros Hab. induction ts as [|t rest IH]; cbn; [reflexivity|].
  destruct (hasId a t) eqn:Ea; cbn.
  - destruct (hasId b t) eqn:Eb; [|exact IH].
    apply strictEqString_true in Ea, Eb. congruence.
  - destruct (hasId b t); cbn; now rewrite IH.
Qed.

Lemma delete_then_undo_tasks id' s :
  occursOnce id' (tasks s) ->
  Permutation (tasks (undoDelete (deleteTask id' s))) (tasks s)
  /\ lastDeleted (undoDelete (deleteTask id' s)) = None.
Proof.
  destruct s as [ts ld]. unfold occursOnce. cbn [tasks]. intros Honce.
  unfold undoDelete, deleteTask. cbn [tasks lastDeleted].
  rewrite find_hd_filter. fold (hasId id').
  destruct (filter (hasId id') ts) as [|x [|y rest]] eqn:Hf; try discriminate.
  cbn [hd_error tasks lastDeleted]. split; [|reflexivity].
  rewrite <- Hf. apply (filter_split_Permutation (hasId id')).
Qed.

(** X10: after [deleteTask(id)] no record of the collection has the id,
    the records with another id are all still there, and a second
    [deleteTask(id)] leaves the collection as it is but empties the slot:
    the deleted record can no longer be restored. *)
Theorem X10_deleteTask_removes_the_id : forall id' s,
  absent id' (tasks (deleteTask id' s))
  /\ (forall t, hasId id' t = false ->
        (In t (tasks (deleteTask id' s)) <-> In t (tasks s)))
  /\ deleteTask id' (deleteTask id' s)
     = {| tasks := tasks (deleteTask id' s); lastDeleted := None |}.
Proof.
  intros id' s.
  assert (Habs : absent id' (tasks (deleteTask id' s))).
  { intros t Ht. cbn in Ht. apply filter_In in Ht as (_ & Ht).
    now apply negb_true_iff in Ht. }
  split; [exact Habs|]. split.
  - intros t Hid. cbn. rewrite filter_In. unfold hasId in Hid.
    rewrite Hid. cbn. tauto.
  - now apply deleteTask_absent.
Qed.

(** X11: the slot holds one record.  When two records with different ids
    are deleted one after the other, [undoDelete()] restores the second
    only: the collection is then the original one without the first
    record, whose id is gone for good. *)
Theorem X11_only_the_last_delete_is_undone : forall a b s,
  a <> b ->
  occursOnce b (tasks s) ->
  Permutation (tasks (undoDelete (deleteTask b (deleteTask a s))))
              (filter (fun t => negb (hasId a t)) (tasks s))
  /\ absent a (tasks (undoDelete (deleteTask b (deleteTask a s))))
  /\ lastDeleted (undoDelete (deleteTask b (deleteTask a s))) = None.
Proof.
  intros a b s Hab Hb.
  assert (Hb' : occursOnce b (tasks (deleteTask a s))).
  { unfold occursOnce in *.
    change (tasks (deleteTask a s))
      with (filter (fun t => negb (hasId a t)) (tasks s)).
    now rewrite filter_filter_other. }
  destruct (delete_then_undo_tasks b (deleteTask a s) Hb') as (Hperm & Hslot).
  split; [exact Hperm|]. split; [|exact Hslot].
  intros t Ht. apply (Permutation_in _ Hperm) in Ht.
  cbn in Ht. apply filter_In in Ht as (_ & Ht). now apply negb_true_iff in Ht.
Qed.

Lemma X11_only_the_last_delete_is_undone_witness :
  Permutation (tasks (undoDelete (deleteTask "t-2" (deleteTask "t-1" storeTwo))))
              (filter (fun t => negb (hasId "t-1" t)) (tasks storeTwo))
  /\ absent "t-1" (tasks (undoDelete (deleteTask "t-2" (deleteTask "t-1" storeTwo))))
  /\ lastDeleted (undoDelete (deleteTask "t-2" (deleteTask "t-1" storeTwo))) = None.
Proof.
  apply (X11_only_the_last_delete_is_undone "t-1" "t-2" storeTwo).
  - discriminate.
  - reflexivity.
Defined.

Lemma addTask_added now uuid task prev :
  addTask now uuid task prev = (prev ++ [added now uuid task])%list.
Proof. reflexivity. Qed.

Lemma find_app_none {A} (p : A -> bool) (l1 l2 : list A) :
  (forall x, In x l1 -> p x = false) -> find p (l1 ++ l2) = find p l2.
Proof.
  induction l1 as [|a l IH]; intros H; cbn; [reflexivity|].
  rewrite (H a (or_introl eq_refl)). apply IH. intros x Hx. apply H. now right.
Qed.

(** X12: a record added under an id that no record has yet is removed
    again by [deleteTask] of that id, which gives back the collection as it
    was before the [addTask] and puts the added record into the slot;
    [undoDelete()] then gives the collection as it was after the
    [addTask]. *)
Theorem X12_add_delete_undo : forall now uuid task prev slot,
  absent (orElse (draftId task) uuid) prev ->
  deleteTask (orElse (draftId task) uuid)
             {| tasks := addTask now uuid task prev; lastDeleted := slot |}
  = {| tasks := prev; lastDeleted := Some (added now uuid task) |}
  /\ undoDelete (deleteTask (orElse (draftId task) uuid)
                   {| tasks := addTask now uuid task prev; lastDeleted := slot |})
     = {| tasks := addTask now uuid task prev; lastDeleted := None |}.
Proof.
  intros now uuid task prev slot Habs.
  assert (Hnew : hasId (orElse (draftId task) uuid) (added now uuid task) = true).
  { unfold hasId, added. cbn [id]. apply strictEqString_refl. }
  assert (Hdel : deleteTask (orElse (draftId task) uuid)
             {| tasks := addTask now uuid task prev; lastDeleted := slot |}
           = {| tasks := prev; lastDeleted := Some (added now uuid task) |}).
  { set (k := orElse (draftId task) uuid) in *.
    change (deleteTask k {| tasks := addTask now uuid task prev;
                            lastDeleted := slot |})
      with {| tasks := filter (fun t => negb (hasId k t))
                         (prev ++ [added now uuid task]);
              lastDeleted := find (hasId k) (prev ++ [added now uuid task]) |}.
    rewrite filter_app, (find_app_none _ prev _ Habs). cbn [filter find].
    rewrite Hnew. cbn [negb]. rewrite app_nil_r.
    rewrite filter_all; [reflexivity|].
    intros t Ht. now rewrite (Habs t Ht). }
  split; [exact Hdel|]. rewrite Hdel. reflexivity.
Qed.

Lemma X12_add_delete_undo_witness :
  deleteTask (orElse (draftId draftDone) "uuid-1")
             {| tasks := addTask clock2026 "uuid-1" draftDone [taskTodo];
                lastDeleted := None |}
  = {| tasks := [taskTodo];
       lastDeleted := Some (added clock2026 "uuid-1" draftDone) |}
  /\ undoDelete (deleteTask (orElse (draftId draftDone) "uuid-1")
                   {| tasks := addTask clock2026 "uuid-1" draftDone [taskTodo];
                      lastDeleted := None |})
     = {| tasks := addTask clock2026 "uuid-1" draftDone [taskTodo];
          lastDeleted := None |}.
Proof.
  apply (X12_add_delete_undo clock2026 "uuid-1" draftDone [taskTodo] None).
  intros t [<- | []]. reflexivity.
Defined.

(** ** timeTaken over a session *)

Lemma leb0_false_positive x :
  PrimFloat.is_nan x = false -> PrimFloat.leb x 0 = false ->
  PrimFloat.ltb 0 x = true.
Proof.
  unfold PrimFloat.is_nan. rewrite leb_spec, ltb_spec, eqb_spec.
  rewrite negb_false_iff. unfold SFleb, SFltb, SFeqb.
  replace (Prim2SF 0) with (S754_zero false) by reflexivity.
  destruct (Prim2SF x) as [[|]|[|]| |[|] m e]; cbn;
    try discriminate; reflexivity.
Qed.

Lemma positive_leb0_false x :
  PrimFloat.ltb 0 x = true -> PrimFloat.leb x 0 = false.
Proof.
  rewrite leb_spec, ltb_spec. unfold SFleb, SFltb.
  replace (Prim2SF 0) with (S754_zero false) by reflexivity.
  destruct (Prim2SF x) as [[|]|[|]| |[|] m e]; cbn;
    try discriminate; reflexivity.
Qed.

Lemma added_positive now uuid task :
  PrimFloat.is_nan (draftTimeTaken task) = false ->
  positive (added now uuid task) = true.
Proof.
  intros Hn. unfold positive, added. cbn [timeTaken].
  destruct (PrimFloat.leb (draftTimeTaken task) 0) eqn:E; [reflexivity|].
  now apply leb0_false_positive.
Qed.

Lemma forallb_map_preserved {A} (p : A -> bool) (f : A -> A) (l : list A) :
  (forall x, p x = true -> p (f x) = true) ->
  forallb p l = true -> forallb p (map f l) = true.
Proof.
  intros Hf. induction l as [|a l IH]; cbn; [reflexivity|].
  intros H. apply andb_true_iff in H as (Ha & Hl).
  now rewrite (Hf a Ha), IH.
Qed.

Lemma RevA_updateTask_positive now id' patch prev :
  patchTimeIsNumber patch = true ->
  forallb positive prev = true ->
  forallb positive (RevAStore.updateTask now id' patch prev) = true.
Proof.
  intros Hp. unfold RevAStore.updateTask. apply forallb_map_preserved.
  intros t Ht. destruct (negb (strictEqString (id t) id')); [exact Ht|].
  rewrite stampCompleted_timeTaken.
  destruct (PrimFloat.leb _ 0) eqn:E; [reflexivity|].
  unfold positive. rewrite stampCompleted_timeTaken.
  unfold merge in *. cbn [timeTaken] in *.
  unfold patchTimeIsNumber in Hp.
  destruct (patchTimeTaken patch) as [x|]; cbn [orElse] in *.
  - apply negb_true_iff in Hp. now apply leb0_false_positive.
  - exact Ht.
Qed.

Lemma forallb_find {A} (p q : A -> bool) (l : list A) x :
  forallb p l = true -> find q l = Some x -> p x = true.
Proof.
  intros Hall Hf. apply find_some in Hf as (Hin & _).
  rewrite forallb_forall in Hall. now apply Hall.
Qed.

Lemma forallb_filter {A} (p q : A -> bool) (l : list A) :
  forallb p l = true -> forallb p (filter q l) = true.
Proof.
  rewrite !forallb_forall. intros H x Hx.
  apply filter_In in Hx as (Hx & _). now apply H.
Qed.

Section SessionInvariant.
Variable engine : Engine.
Variable normalizeTasks : Z -> JsValue -> Completion (list Task).
Variable updateTask : Z -> string -> Patch -> list Task -> list Task.
Variable generateSalesTasks : nat -> list Task.
Variable tame : Event -> bool.

Hypothesis normalize_positive : forall now body out,
  normalizeTasks now body = Return out -> forallb positive out = true.
Hypothesis generate_positive : forall n,
  forallb positive (generateSalesTasks n) = true.
Hypothesis tame_add : forall now uuid task,
  tame (CallAdd now uuid task) = true ->
  PrimFloat.is_nan (draftTimeTaken task) = false.
Hypothesis tame_update : forall now id' patch prev,
  tame (CallUpdate now id' patch) = true ->
  forallb positive prev = true ->
  forallb positive (updateTask now id' patch prev) = true.

Lemma resume_positive now r isMounted h :
  storePositive (store h) = true ->
  storePositive
    (store (fst (resume engine normalizeTasks generateSalesTasks now r isMounted h)))
  = true.
Proof.
  intros Hs. destruct r as [m | st | body]; cbn.
  - destruct isMounted; exact Hs.
  - destruct isMounted; exact Hs.
  - destruct (normalizeTasks now body) as [out | e] eqn:E.
    + destruct isMounted; cbn; [|exact Hs].
      unfold storePositive in *. cbn [tasks lastDeleted].
      apply andb_true_iff in Hs as (_ & Hslot). rewrite Hslot, andb_true_r.
      destruct (List.length out);
        [apply generate_positive | exact (normalize_positive _ _ _ E)].
    + destruct isMounted; exact Hs.
Qed.

Lemma step_positive h ev :
  tame ev = true ->
  storePositive (store h) = true ->
  storePositive
    (store (fst (step engine normalizeTasks updateTask generateSalesTasks h ev)))
  = true.
Proof.
  intros Ht Hs.
  destruct ev as [| | now r | now uuid task | now id' patch | id' | |]; cbn [step].
  - unfold effect. destruct (fetchedRef h); exact Hs.
  - exact Hs.
  - destruct (inflight h) as [|m rest]; [exact Hs|].
    now apply resume_positive.
  - cbn [fst]. unfold setTasks, setStore, storePositive in *.
    cbn [store tasks lastDeleted].
    apply andb_true_iff in Hs as (Hts & Hslot). rewrite Hslot, andb_true_r.
    rewrite addTask_added, forallb_app, Hts. cbn [forallb andb].
    now rewrite (added_positive now uuid task (tame_add now uuid task Ht)).
  - cbn [fst]. unfold setTasks, setStore, storePositive in *.
    cbn [store tasks lastDeleted].
    apply andb_true_iff in Hs as (Hts & Hslot). rewrite Hslot, andb_true_r.
    now apply (tame_update now).
  - cbn [fst]. unfold setStore, storePositive, deleteTask in *.
    cbn [store tasks lastDeleted].
    apply andb_true_iff in Hs as (Hts & _).
    rewrite (forallb_filter _ _ _ Hts). cbn [andb].
    destruct (find _ (tasks (store h))) as [x|] eqn:Hf; [|reflexivity].
    exact (forallb_find _ _ _ _ Hts Hf).
  - destruct h as [[ts [x|]] l e f i];
      cbn [fst]; unfold setStore, storePositive, undoDelete in *;
      cbn [store tasks lastDeleted] in *;
      apply andb_true_iff in Hs as (Hts & Hslot).
    + rewrite forallb_app, Hts. cbn [forallb andb]. now rewrite Hslot.
    + now rewrite Hts.
  - cbn [fst]. unfold setStore, storePositive, clearLastDeleted in *.
    cbn [store tasks lastDeleted].
    apply andb_true_iff in Hs as (Hts & _). now rewrite Hts.
Qed.

Lemma run_positive evs : forall h,
  forallb tame evs = true ->
  storePositive (store h) = true ->
  storePositive
    (store (fst (run engine normalizeTasks updateTask generateSalesTasks h evs)))
  = true.
Proof.
  induction evs as [|ev rest IH]; intros h Ht Hs; cbn [run]; [exact Hs|].
  cbn in Ht. apply andb_true_iff in Ht as (Hev & Hrest).
  pose proof (step_positive h ev Hev Hs) as H1.
  destruct (step _ _ _ _ h ev) as [h1 log1]. cbn [fst] in H1.
  specialize (IH h1 Hrest H1).
  destruct (run _ _ _ _ h1 rest) as [h2 log2]. exact IH.
Qed.
End SessionInvariant.

Lemma RevA_batch_positive engine now body out :
  RevA.normalizeTasks engine now body = Return out ->
  forallb positive out = true.
Proof.
  intros H. destruct body as [| |b|x|s|rows|props]; cbn in H;
    try (now invert_Return H).
  apply forallb_nth_error. intros j o Ho.
  destruct (mapWithIndex_outputs _ _ _ _ H j o Ho) as (row & _ & Hf).
  apply (normalizeTask_timeTaken_positive engine now row j o). now left.
Qed.

Lemma RevB_batch_positive engine body out :
  RevB.normalizeTasks engine body = Return out ->
  forallb positive out = true.
Proof.
  intros H. destruct body as [| |b|x|s|rows|props]; cbn in H;
    try (now invert_Return H).
  apply forallb_nth_error. intros j o Ho.
  destruct (mapWithIndex_outputs _ _ _ _ H j o Ho) as (row & _ & Hf).
  apply (normalizeTask_timeTaken_positive engine 0 row j o). now right.
Qed.

(** X13 (first revision): in a session in which no call passes NaN as
    [timeTaken] (and the generated seed has positive [timeTaken]), every
    record of the collection and the record in the slot have
    [timeTaken > 0] at every moment, from a store that has it on: loading,
    adding, updating, deleting and undoing all keep it. *)
Theorem X13_RevA_session_keeps_timeTaken_positive :
  forall engine generateSalesTasks evs h,
  (forall n, forallb positive (generateSalesTasks n) = true) ->
  forallb tameA evs = true ->
  storePositive (store h) = true ->
  storePositive
    (store (fst (run engine (RevA.normalizeTasks engine) RevAStore.updateTask
                     generateSalesTasks h evs))) = true.
Proof.
  intros engine gen evs h Hgen Htame Hs.
  apply (run_positive engine (RevA.normalizeTasks engine) RevAStore.updateTask
           gen tameA); auto.
  - intros now body out. apply RevA_batch_positive.
  - intros now uuid task H. cbn in H. now apply negb_true_iff in H.
  - intros now id' patch prev H. cbn in H. now apply RevA_updateTask_positive.
Qed.

Lemma X13_RevA_session_keeps_timeTaken_positive_witness :
  (forall engine,
     storePositive
       (store (fst (run engine (RevA.normalizeTasks engine) RevAStore.updateTask
                        (fun _ => []) initialHook sessionEvents))) = true)
  /\ forallb tameA sessionEvents = true.
Proof.
  split; [intros engine | reflexivity].
  apply (X13_RevA_session_keeps_timeTaken_positive engine (fun _ => [])
           sessionEvents initialHook); reflexivity.
Defined.

(** X14 (second revision): the same, for sessions whose patches moreover
    leave the id alone (no [id] in the patch, or the id it is applied
    to). *)
Theorem X14_RevB_session_keeps_timeTaken_positive :
  forall engine generateSalesTasks evs h,
  (forall n, forallb positive (generateSalesTasks n) = true) ->
  forallb tameB evs = true ->
  storePositive (store h) = true ->
  storePositive
    (store (fst (run engine (fun _ => RevB.normalizeTasks engine)
                     RevBStore.updateTask generateSalesTasks h evs))) = true.
Proof.
  intros engine gen evs h Hgen Htame Hs.
  apply (run_positive engine (fun _ => RevB.normalizeTasks engine)
           RevBStore.updateTask gen tameB); auto.
  - intros now body out. apply RevB_batch_positive.
  - intros now uuid task H. cbn in H. now apply negb_true_iff in H.
  - intros now id' patch prev H Hprev. cbn in H.
    apply andb_true_iff in H as (Hnum & Hkeep).
    rewrite (RevB_updateTask_as_RevA _ _ _ _ Hkeep).
    now apply RevA_updateTask_positive.
Qed.

Lemma X14_RevB_session_keeps_timeTaken_positive_witness :
  (forall engine,
     storePositive
       (store (fst (run engine (fun _ => RevB.normalizeTasks engine)
                        RevBStore.updateTask (fun _ => []) initialHook
                        sessionEvents))) = true)
  /\ forallb tameB sessionEvents = true.
Proof.
  split; [intros engine | reflexivity].
  apply (X14_RevB_session_keeps_timeTaken_positive engine (fun _ => [])
           sessionEvents initialHook); reflexivity.
Defined.

(** ** The load and the calls around it *)

Section LoadFacts.
Variable engine : Engine.
Variable normalizeTasks : Z -> JsValue -> Completion (list Task).
Variable updateTask : Z -> string -> Patch -> list Task -> list Task.
Variable generateSalesTasks : nat -> list Task.

Lemma run_app evs1 evs2 : forall h,
  run engine normalizeTasks updateTask generateSalesTasks h (evs1 ++ evs2)
  = (let '(h1, log1) :=
       run engine normalizeTasks updateTask generateSalesTasks h evs1 in
     let '(h2, log2) :=
       run engine normalizeTasks updateTask generateSalesTasks h1 evs2 in
     (h2, (log1 ++ log2)%list)).
Proof.
  induction evs1 as [|ev rest IH]; intros h; cbn [run app].
  - now destruct (run _ _ _ _ h evs2).
  - destruct (step _ _ _ _ h ev) as [h1 log1]. rewrite IH.
    destruct (run _ _ _ _ h1 rest) as [h2 log2].
    destruct (run _ _ _ _ h2 evs2) as [h3 log3].
    now rewrite app_assoc.
Qed.

(** The calls of the consumer touch the store only. *)
Lemma calls_keep_lifecycle evs : forall h,
  forallb isCall evs = true ->
  let '(h1, log) :=
    run engine normalizeTasks updateTask generateSalesTasks h evs in
  log = [] /\ loading h1 = loading h /\ error h1 = error h
  /\ fetchedRef h1 = fetchedRef h /\ inflight h1 = inflight h.
Proof.
  induction evs as [|ev rest IH]; intros h Hc; cbn [run]; [auto|].
  cbn in Hc. apply andb_true_iff in Hc as (Hev & Hrest).
  assert (Hs : snd (step engine normalizeTasks updateTask generateSalesTasks h ev) = []
               /\ loading (fst (step engine normalizeTasks updateTask generateSalesTasks h ev)) = loading h
               /\ error (fst (step engine normalizeTasks updateTask generateSalesTasks h ev)) = error h
               /\ fetchedRef (fst (step engine normalizeTasks updateTask generateSalesTasks h ev)) = fetchedRef h
               /\ inflight (fst (step engine normalizeTasks updateTask generateSalesTasks h ev)) = inflight h).
  { destruct ev; try discriminate; cbn; auto. }
  destruct (step _ _ _ _ h ev) as [h1 log1]. cbn [fst snd] in Hs.
  destruct Hs as (-> & H1 & H2 & H3 & H4).
  specialize (IH h1 Hrest).
  destruct (run _ _ _ _ h1 rest) as [h2 log2].
  destruct IH as (-> & K1 & K2 & K3 & K4).
  repeat split; congruence.
Qed.

Lemma flags_monotone evs : forall h,
  let h1 := fst (run engine normalizeTasks updateTask generateSalesTasks h evs) in
  (loading h = false -> loading h1 = false)
  /\ (fetchedRef h = true -> fetchedRef h1 = true)
  /\ (nullish (error h) = false -> nullish (error h1) = false).
Proof.
  induction evs as [|ev rest IH]; intros h; cbn [run]; [cbn; auto|].
  assert (Hs : let h1 := fst (step engine normalizeTasks updateTask generateSalesTasks h ev) in
               (loading h = false -> loading h1 = false)
               /\ (fetchedRef h = true -> fetchedRef h1 = true)
               /\ (nullish (error h) = false -> nullish (error h1) = false)).
  { destruct ev as [| | now r | now uuid task | now id' patch | id' | |];
      cbn [step]; try (cbn; auto; fail).
    - unfold effect. destruct (fetchedRef h) eqn:E; cbn; rewrite ?E;
        repeat split; auto.
    - destruct (inflight h) as [|m rest']; [cbn; auto|].
      destruct r as [msg | st | body]; cbn [resume].
      + destruct m; cbn; repeat split; auto.
        intros _. unfold coalesce. destruct (nullish msg) eqn:E; auto.
      + destruct m; cbn; repeat split; auto.
      + destruct (normalizeTasks now body); destruct m; cbn;
          repeat split; auto. }
  destruct (step _ _ _ _ h ev) as [h1 log1]. cbn [fst] in Hs.
  specialize (IH h1).
  destruct (run _ _ _ _ h1 rest) as [h2 log2]. cbn [fst] in *.
  destruct Hs as (A1 & A2 & A3), IH as (B1 & B2 & B3). auto.
Qed.
End LoadFacts.

(** X15: what the first load leaves, for a mounted instance.  When the
    fetch is rejected, the response is not ok, or [normalizeTasks] throws,
    the collection stays empty (no generated seed), [error] holds the
    message and [loading] is false.  When [normalizeTasks] returns the
    empty array (any value that is not an array included), the collection
    is [generateSalesTasks(50)]; when it returns records, the collection is
    these records; in both cases [error] stays null. *)
Theorem X15_first_load_outcomes :
  forall engine normalizeTasks updateTask generateSalesTasks now r,
  let h := fst (run engine normalizeTasks updateTask generateSalesTasks
                    initialHook [EffectRuns; LoadSettles now r]) in
  loading h = false /\ lastDeleted (store h) = None /\
  match r with
  | Rejected message =>
      tasks (store h) = []
      /\ error h = coalesce message (JString "Failed to load tasks")
  | NotOk status =>
      tasks (store h) = []
      /\ error h = JString ("Failed to load tasks.json (" ++ status ++ ")")
  | Json body =>
      match normalizeTasks now body with
      | Throw e =>
          tasks (store h) = [] /\ error h = JString (ErrorMessage engine e)
      | Return [] =>
          tasks (store h) = generateSalesTasks 50%nat /\ error h = JNull
      | Return (t :: rest) =>
          tasks (store h) = t :: rest /\ error h = JNull
      end
  end.
Proof.
  intros engine norm upd gen now r. cbv zeta.
  destruct r as [msg | st | body]; cbn; auto.
  destruct (norm now body) as [[|t rest] | e]; cbn; auto.
Qed.

(** X16: a successful load replaces the collection.  Whatever the consumer
    called between the start of the load and its resumption, the collection
    afterwards is the loaded one (or the generated seed when the loaded
    array is empty): records added in between are dropped. *)
Theorem X16_load_replaces_collection :
  forall engine normalizeTasks updateTask generateSalesTasks calls now body loaded,
  forallb isCall calls = true ->
  normalizeTasks now body = Return loaded ->
  let h := fst (run engine normalizeTasks updateTask generateSalesTasks
                    initialHook
                    (EffectRuns :: calls ++ [LoadSettles now (Json body)])) in
  tasks (store h)
    = (if (0 <? List.length loaded)%nat then loaded else generateSalesTasks 50%nat)
  /\ loading h = false /\ error h = JNull.
Proof.
  intros engine norm upd gen calls now body loaded Hcalls Hnorm. cbv zeta.
  cbn [run step effect initialHook fetchedRef].
  set (h0 := {| store := _; loading := _; error := _; fetchedRef := true;
                inflight := _ |}).
  rewrite run_app.
  pose proof (calls_keep_lifecycle engine norm upd gen calls h0 Hcalls) as Hk.
  destruct (run engine norm upd gen h0 calls) as [h1 log1].
  destruct Hk as (-> & K1 & K2 & K3 & K4).
  cbn [run step]. rewrite K4. cbn [inflight h0 app].
  cbn [resume]. rewrite Hnorm. cbn. rewrite K2. auto.
Qed.

Lemma X16_load_replaces_collection_witness :
  (forall engine updateTask generateSalesTasks,
     let h := fst (run engine (fun _ => RevB.normalizeTasks engine) updateTask
                       generateSalesTasks initialHook
                       (EffectRuns
                        :: [CallAdd clock2026 "uuid-1" draftDone]
                        ++ [LoadSettles clock2026 (Json (JArray [rowDone2020]))])) in
     tasks (store h)
       = (if (0 <? List.length [taskDone2020B])%nat then [taskDone2020B]
          else generateSalesTasks 50%nat)
     /\ loading h = false /\ error h = JNull)
  /\ (0 <? List.length [taskDone2020B])%nat = true.
Proof.
  split; [intros engine upd gen | reflexivity].
  apply (X16_load_replaces_collection engine (fun _ => RevB.normalizeTasks engine)
           upd gen [CallAdd clock2026 "uuid-1" draftDone] clock2026
           (JArray [rowDone2020]) [taskDone2020B]).
  - reflexivity.
  - vm_compute. reflexivity.
Defined.

(** X17: over any session, [loading] never goes back to true once it is
    false, [fetchedRef] never goes back to false, and an [error] that is
    set is never cleared: there is no second load and no retry. *)
Theorem X17_flags_never_go_back :
  forall engine normalizeTasks updateTask generateSalesTasks evs h,
  let h1 := fst (run engine normalizeTasks updateTask generateSalesTasks h evs) in
  (loading h = false -> loading h1 = false)
  /\ (fetchedRef h = true -> fetchedRef h1 = true)
  /\ (nullish (error h) = false -> nullish (error h1) = false).
Proof. intros. apply flags_monotone. Qed.

(** ** The same patch twice *)

Lemma orElse_idem {A} (o : option A) (x : A) :
  orElse o (orElse o x) = orElse o x.
Proof. destruct o; reflexivity. Qed.

Lemma leb_1_0 : PrimFloat.leb 1 0 = false.
Proof. reflexivity. Qed.

Lemma RevA_update_record_twice now1 now2 id' patch t :
  patchCompletedAt patch = None ->
  patchKeepsId id' patch = true ->
  let upd now t :=
    if negb (strictEqString (id t) id') then t
    else
      let merged := stampCompleted now t (merge t patch) in
      if PrimFloat.leb (orElse (patchTimeTaken patch) (timeTaken merged)) 0
      then withTimeTaken merged 1
      else merged in
  upd now2 (upd now1 t) = upd now1 t.
Proof.
  intros Hpc Hkeep upd. unfold upd.
  destruct (strictEqString (id t) id') eqn:Hid; cbn [negb]; [|now rewrite Hid].
  pose proof (merged_keeps_id id' t patch Hid Hkeep) as Hm. unfold hasId in Hm.
  destruct t as [i ti rv tt pr st nt ca co].
  destruct patch as [pi pt prv ptt ppr pst pn pca pco].
  cbn in Hpc. subst pco.
  unfold stampCompleted, merge, withTimeTaken, withCompletedAt in *.
  cbn [id title revenue timeTaken priority status notes createdAt completedAt
       patchId patchTitle patchRevenue patchTimeTaken patchPriority patchStatus
       patchNotes patchCreatedAt patchCompletedAt orElse] in *.
  destruct (negb (strictEqString st "Done")
            && strictEqString (orElse pst st) "Done"
            && negb (ToBoolean co)) eqn:Hstamp;
    cbn [id title revenue timeTaken priority status notes createdAt completedAt];
    destruct ptt as [x|]; cbn [orElse];
    (destruct (PrimFloat.leb _ 0) eqn:Hleb;
     cbn [id title revenue timeTaken priority status notes createdAt completedAt];
     rewrite Hm; cbn [negb];
     rewrite !orElse_idem;
     cbn [id title revenue timeTaken priority status notes createdAt completedAt orElse];
     rewrite ?Hleb, ?leb_1_0;
     destruct (strictEqString (orElse pst st) "Done");
     cbn [negb andb];
     cbn [id title revenue timeTaken priority status notes createdAt completedAt];
     rewrite ?Hleb, ?leb_1_0;
     reflexivity).
Qed.

(** X18: applying the same patch a second time changes nothing more, at
    whatever time the second call is made, provided the patch has no
    [completedAt] and leaves the id alone (either revision). *)
Theorem X18_updateTask_twice : forall now1 now2 id' patch prev,
  patchCompletedAt patch = None ->
  patchKeepsId id' patch = true ->
  RevAStore.updateTask now2 id' patch (RevAStore.updateTask now1 id' patch prev)
  = RevAStore.updateTask now1 id' patch prev
  /\ RevBStore.updateTask now2 id' patch (RevBStore.updateTask now1 id' patch prev)
     = RevBStore.updateTask now1 id' patch prev.
Proof.
  intros now1 now2 id' patch prev Hpc Hkeep.
  assert (HA : RevAStore.updateTask now2 id' patch
                 (RevAStore.updateTask now1 id' patch prev)
               = RevAStore.updateTask now1 id' patch prev).
  { unfold RevAStore.updateTask. rewrite map_map. apply map_ext.
    intros t. exact (RevA_update_record_twice now1 now2 id' patch t Hpc Hkeep). }
  split; [exact HA|].
  now rewrite !(RevB_updateTask_as_RevA _ _ _ _ Hkeep).
Qed.

Lemma X18_updateTask_twice_witness :
  RevAStore.updateTask 1800000000000 "t-1" (patchStatusOnly "Done")
    (RevAStore.updateTask clock2026 "t-1" (patchStatusOnly "Done") [taskTodo; taskOther])
  = RevAStore.updateTask clock2026 "t-1" (patchStatusOnly "Done") [taskTodo; taskOther]
  /\ RevBStore.updateTask 1800000000000 "t-1" (patchStatusOnly "Done")
       (RevBStore.updateTask clock2026 "t-1" (patchStatusOnly "Done") [taskTodo; taskOther])
     = RevBStore.updateTask clock2026 "t-1" (patchStatusOnly "Done") [taskTodo; taskOther].
Proof.
  apply (X18_updateTask_twice clock2026 1800000000000 "t-1"
           (patchStatusOnly "Done") [taskTodo; taskOther]); reflexivity.
Defined.

(** ** Small print *)

Lemma X10_deleteTask_removes_the_id_witness :
  absent "t-1" (tasks (deleteTask "t-1" storeTwo))
  /\ (In taskOther (tasks (deleteTask "t-1" storeTwo)) <-> In taskOther (tasks storeTwo))
  /\ deleteTask "t-1" (deleteTask "t-1" storeTwo)
     = {| tasks := [taskOther]; lastDeleted := None |}.
Proof.
  destruct (X10_deleteTask_removes_the_id "t-1" storeTwo) as (H1 & H2 & H3).
  split; [exact H1|]. split; [|exact H3].
  apply H2. reflexivity.
Defined.

Lemma X17_flags_never_go_back_witness :
  (forall engine normalizeTasks updateTask generateSalesTasks,
     loading (fst (run engine normalizeTasks updateTask generateSalesTasks
                       hookFailed sessionEvents)) = false)
  /\ (forall engine normalizeTasks updateTask generateSalesTasks,
        nullish (error (fst (run engine normalizeTasks updateTask
                                 generateSalesTasks hookFailed sessionEvents)))
        = false).
Proof.
  split; intros engine norm upd gen;
    destruct (X17_flags_never_go_back engine norm upd gen sessionEvents hookFailed)
      as (H1 & H2 & H3).
  - apply H1. reflexivity.
  - apply H3. reflexivity.
Defined.

(** X19: [clearLastDeleted()] never touches the collection, and after it
    [undoDelete()] restores nothing: a record deleted and then cleared is
    gone. *)
Theorem X19_clear_then_undo : forall id' s,
  tasks (clearLastDeleted s) = tasks s
  /\ undoDelete (clearLastDeleted s) = clearLastDeleted s
  /\ tasks (undoDelete (clearLastDeleted (deleteTask id' s)))
     = filter (fun t => negb (hasId id' t)) (tasks s)
  /\ absent id' (tasks (undoDelete (clearLastDeleted (deleteTask id' s)))).
Proof.
  intros id' s. repeat split.
  intros t Ht. cbn in Ht. apply filter_In in Ht as (_ & Ht).
  now apply negb_true_iff in Ht.
Qed.

(** X20 (second revision): for a row without [createdAt] whose [id] is
    missing, null, or a string without any digit, the fallback is the
    second of January 2020, local midnight: the empty digit string counts
    as 0, which [|| 1] turns into 1, and 1 % 28 + 1 = 2. *)
Theorem X20_RevB_id_without_digits : forall engine idValue,
  StringToNumber engine "" = 0%float ->
  (nullish idValue = true \/
   exists s, idValue = JString s /\ removeNonDigits s = "") ->
  RevB.stableDateFromId engine (coalesce idValue (JString ""))
  = Return (TimeClipZ (jan2Local - LocalTZA engine jan2Local)).
Proof.
  intros engine idValue Hzero Hid.
  assert (H : exists s, coalesce idValue (JString "") = JString s
                        /\ removeNonDigits s = "").
  { destruct Hid as [Hn | (s & -> & Hs)].
    - exists "". unfold coalesce. now rewrite Hn.
    - exists s. auto. }
  destruct H as (s & -> & Hs).
  unfold RevB.stableDateFromId. rewrite Hs, Hzero.
  reflexivity.
Qed.

Lemma X20_RevB_id_without_digits_witness :
  RevB.stableDateFromId plainEngine (coalesce (field rowNoId "id") (JString ""))
  = Return (TimeClipZ (jan2Local - LocalTZA plainEngine jan2Local))
  /\ isoOfTime jan2Local = "2020-01-02T00:00:00.000Z".
Proof.
  split; [|reflexivity].
  apply (X20_RevB_id_without_digits plainEngine (field rowNoId "id")).
  - reflexivity.
  - left. reflexivity.
Defined.
